(** * The background telemetry worker: buffer, flush loop and lifecycle

    A shallow embedding of [background_worker.py] (class [BackgroundWorker])
    and of the worker-related methods of [windows_app.py] (class
    [WindowsApp]).

    Conventions of the embedding.
    - An object is a record; a method is a function on the record.  What a
      method prints, posts or spawns is returned as a list of [effect]s, in
      execution order.
    - What the environment decides is an argument: the reading of
      [time.time()] in a callback ([ts]), the answer of the endpoint to a
      POST ([response]), the instant at which a method is called ([now]).
    - The classes of [pynput], [threading] and [requests] are not part of
      the repository; they are modelled by the part of their documented
      behaviour that the code relies on, next to their first use. *)

From Stdlib Require Import ZArith List Ascii String Bool Lia.
Import ListNotations.
Open Scope string_scope.
Open Scope Z_scope.
Open Scope list_scope.

(** ** Python values stored in the buffers *)

(** The values that the callbacks put into an event.  A float is only ever
    a reading of [time.time()]; the code stores it and never computes with
    it, so the reading is kept as an opaque tick count. *)
Inductive pyval : Type :=
| PyNone
| PyBool (b : bool)
| PyInt (n : Z)
| PyFloat (ticks : Z)
| PyStr (s : string).

(** A dict literal, in insertion order. *)
Definition event : Type := list (string * pyval).

(** A value of the JSON body: a scalar or one of the two event lists. *)
Inductive json : Type :=
| JVal (v : pyval)
| JList (l : list event).

Definition body : Type := list (string * json).

(** ** Exceptions and results *)

Inductive exn : Type :=
| AttributeError
| RuntimeError.

Inductive result (A : Type) : Type :=
| Return (a : A)
| Raise (e : exn)
| Diverge.
Arguments Return {A} a.
Arguments Raise {A} e.
Arguments Diverge {A}.

(** ** Collaborators *)

(** A [pynput] listener is a [threading.Thread]: it can be started once,
    a second [start()] raises [RuntimeError]; [stop()] detaches a running
    listener and does nothing otherwise. *)
Inductive listener : Type :=
| Created
| Listening
| Detached.

Definition listener_start (l : listener) : result listener :=
  match l with
  | Created => Return Listening
  | _ => Raise RuntimeError
  end.

Definition listener_stop (l : listener) : listener :=
  match l with
  | Listening => Detached
  | _ => l
  end.

(** A mouse button as [on_click] sees it: only [str(button)] is used. *)
Inductive Button : Type :=
| Button_left
| Button_middle
| Button_right
| Button_unknown.

Definition str_button (b : Button) : string :=
  match b with
  | Button_left => "Button.left"
  | Button_middle => "Button.middle"
  | Button_right => "Button.right"
  | Button_unknown => "Button.unknown"
  end.

(** A key object as [on_press] and [on_release] see it.  They read the
    attribute [char] and call [str]; so a key is what these two give.
    [key_char = None] is an object without attribute [char]: reading it
    raises [AttributeError]. *)
Record KeyObj : Type := {
  key_char : option pyval;
  key_str : string
}.

Definition getattr_char (key : KeyObj) : result pyval :=
  match key_char key with
  | Some v => Return v
  | None => Raise AttributeError
  end.

(** The key objects of [pynput.keyboard]: a member of the enum [Key] has no
    [char]; a [KeyCode] has one, which is [None] when the key code carries
    only a virtual key number. *)
Definition Key_member (name : string) : KeyObj :=
  {| key_char := None; key_str := ("Key." ++ name)%string |}.

Definition KeyCode_from_char (c : string) : KeyObj :=
  {| key_char := Some (PyStr c); key_str := ("'" ++ c ++ "'")%string |}.

Definition KeyCode_from_vk (vk : string) : KeyObj :=
  {| key_char := Some PyNone; key_str := ("<" ++ vk ++ ">")%string |}.

(** The answer of [requests.post]: it returns a response whatever the
    status, or raises a [RequestException].  The call is made without a
    timeout; a request that never comes back has no answer here, so what
    is stated of a pass that posts is stated of a pass whose request comes
    back. *)
Inductive response : Type :=
| Response (status : Z)
| RequestException (msg : string).

(** What a method does to the outside, in order. *)
Inductive thread_kind : Type :=
| MouseListener
| KeyboardListener
| DataThread.

Inductive effect : Type :=
| Printed (line : string)
| Posted (url : string) (data : body)
| Spawned (k : thread_kind).

(** ** [background_worker.py] *)

(** Where the thread running [send_data] stands. *)
Inductive pc : Type :=
| AtWhile
| Sleeping (until : Z)
| Exited.

(** The fields of a [BackgroundWorker].  [data_thread] is bound by
    [start()] only: [None] is the attribute not yet bound. *)
Record BackgroundWorker : Type := {
  session_id : pyval;
  user_id : pyval;
  api_url : string;
  _stop_event : bool;
  mouse_listener : listener;
  keyboard_listener : listener;
  mouse_events : list event;
  keyboard_events : list event;
  data_thread : option pc
}.

Definition set_stop_event (b : bool) (w : BackgroundWorker) : BackgroundWorker :=
  {| session_id := session_id w; user_id := user_id w; api_url := api_url w;
     _stop_event := b;
     mouse_listener := mouse_listener w; keyboard_listener := keyboard_listener w;
     mouse_events := mouse_events w; keyboard_events := keyboard_events w;
     data_thread := data_thread w |}.

Definition set_mouse_listener (l : listener) (w : BackgroundWorker) : BackgroundWorker :=
  {| session_id := session_id w; user_id := user_id w; api_url := api_url w;
     _stop_event := _stop_event w;
     mouse_listener := l; keyboard_listener := keyboard_listener w;
     mouse_events := mouse_events w; keyboard_events := keyboard_events w;
     data_thread := data_thread w |}.

Definition set_keyboard_listener (l : listener) (w : BackgroundWorker) : BackgroundWorker :=
  {| session_id := session_id w; user_id := user_id w; api_url := api_url w;
     _stop_event := _stop_event w;
     mouse_listener := mouse_listener w; keyboard_listener := l;
     mouse_events := mouse_events w; keyboard_events := keyboard_events w;
     data_thread := data_thread w |}.

Definition set_mouse_events (l : list event) (w : BackgroundWorker) : BackgroundWorker :=
  {| session_id := session_id w; user_id := user_id w; api_url := api_url w;
     _stop_event := _stop_event w;
     mouse_listener := mouse_listener w; keyboard_listener := keyboard_listener w;
     mouse_events := l; keyboard_events := keyboard_events w;
     data_thread := data_thread w |}.

Definition set_keyboard_events (l : list event) (w : BackgroundWorker) : BackgroundWorker :=
  {| session_id := session_id w; user_id := user_id w; api_url := api_url w;
     _stop_event := _stop_event w;
     mouse_listener := mouse_listener w; keyboard_listener := keyboard_listener w;
     mouse_events := mouse_events w; keyboard_events := l;
     data_thread := data_thread w |}.

Definition set_data_thread (t : option pc) (w : BackgroundWorker) : BackgroundWorker :=
  {| session_id := session_id w; user_id := user_id w; api_url := api_url w;
     _stop_event := _stop_event w;
     mouse_listener := mouse_listener w; keyboard_listener := keyboard_listener w;
     mouse_events := mouse_events w; keyboard_events := keyboard_events w;
     data_thread := t |}.

(** [__init__] *)
Definition default_api_url : string := "http://127.0.0.1:5000/api/background_data".

Definition init (sid uid : pyval) (url : string) : BackgroundWorker :=
  {| session_id := sid; user_id := uid; api_url := url;
     _stop_event := false;
     mouse_listener := Created; keyboard_listener := Created;
     mouse_events := []; keyboard_events := [];
     data_thread := None |}.

(** *** The capture callbacks

    [ts] is what [time.time()] returns inside the call. *)

Definition on_move (x y : Z) (ts : Z) (w : BackgroundWorker) : BackgroundWorker :=
  set_mouse_events
    (mouse_events w ++
       [[("type", PyStr "move"); ("x", PyInt x); ("y", PyInt y);
         ("timestamp", PyFloat ts)]]) w.

Definition on_click (x y : Z) (button : Button) (pressed : bool) (ts : Z)
    (w : BackgroundWorker) : BackgroundWorker :=
  set_mouse_events
    (mouse_events w ++
       [[("type", PyStr "click"); ("x", PyInt x); ("y", PyInt y);
         ("button", PyStr (str_button button)); ("pressed", PyBool pressed);
         ("timestamp", PyFloat ts)]]) w.

Definition on_scroll (x y dx dy : Z) (ts : Z) (w : BackgroundWorker) : BackgroundWorker :=
  set_mouse_events
    (mouse_events w ++
       [[("type", PyStr "scroll"); ("x", PyInt x); ("y", PyInt y);
         ("dx", PyInt dx); ("dy", PyInt dy); ("timestamp", PyFloat ts)]]) w.

(** [try: ... key.char ... except AttributeError: ... str(key) ...].  The
    dict literal of the [try] block evaluates [key.char] before
    [time.time()]; when it raises, nothing has been appended and the handler
    builds the event anew.  Another exception than [AttributeError] would
    leave the callback; [getattr_char] raises no other. *)
Definition on_press (key : KeyObj) (ts : Z) (w : BackgroundWorker) : BackgroundWorker :=
  match getattr_char key with
  | Return c =>
      set_keyboard_events
        (keyboard_events w ++
           [[("type", PyStr "press"); ("key", c); ("timestamp", PyFloat ts)]]) w
  | Raise AttributeError =>
      set_keyboard_events
        (keyboard_events w ++
           [[("type", PyStr "press"); ("key", PyStr (key_str key));
             ("timestamp", PyFloat ts)]]) w
  | _ => w
  end.

Definition on_release (key : KeyObj) (ts : Z) (w : BackgroundWorker) : BackgroundWorker :=
  match getattr_char key with
  | Return c =>
      set_keyboard_events
        (keyboard_events w ++
           [[("type", PyStr "release"); ("key", c); ("timestamp", PyFloat ts)]]) w
  | Raise AttributeError =>
      set_keyboard_events
        (keyboard_events w ++
           [[("type", PyStr "release"); ("key", PyStr (key_str key));
             ("timestamp", PyFloat ts)]]) w
  | _ => w
  end.

(** One call of a callback by a listener thread. *)
Inductive input : Type :=
| Move (x y ts : Z)
| Click (x y : Z) (button : Button) (pressed : bool) (ts : Z)
| Scroll (x y dx dy ts : Z)
| Press (key : KeyObj) (ts : Z)
| Release (key : KeyObj) (ts : Z).

Definition record (i : input) (w : BackgroundWorker) : BackgroundWorker :=
  match i with
  | Move x y ts => on_move x y ts w
  | Click x y button pressed ts => on_click x y button pressed ts w
  | Scroll x y dx dy ts => on_scroll x y dx dy ts w
  | Press key ts => on_press key ts w
  | Release key ts => on_release key ts w
  end.

Definition records (l : list input) (w : BackgroundWorker) : BackgroundWorker :=
  fold_left (fun w' i => record i w') l w.

(** *** [send_data]: the body of the loop *)

(** Truth value of a list. *)
Definition truth (l : list event) : bool :=
  match l with
  | [] => false
  | _ :: _ => true
  end.

Definition data_to_send (w : BackgroundWorker) : body :=
  [("session_id", JVal (session_id w));
   ("user_id", JVal (user_id w));
   ("mouse_data", JList (mouse_events w));
   ("keyboard_data", JList (keyboard_events w))].

(** From the [if] to the moment the request leaves: [requests.post]
    serialises [data_to_send] when it prepares the request, so the body is
    the content of the two lists at that moment. *)
Definition request (w : BackgroundWorker) : option body :=
  if truth (mouse_events w) || truth (keyboard_events w)
  then Some (data_to_send w)
  else None.

(** From the answer on: the two lists are rebound to fresh empty lists
    when [requests.post] has returned, and kept when it has raised. *)
Definition settle (r : response) (w : BackgroundWorker) : BackgroundWorker * list effect :=
  match r with
  | Response _ => (set_keyboard_events [] (set_mouse_events [] w), [])
  | RequestException e => (w, [Printed ("Could not send data: " ++ e)%string])
  end.

(** One pass through the body after the sleep.  No lock protects the
    lists: [during] are the callbacks that the listener threads run while
    the request is in flight.  They append to the lists that the worker
    still names, after the body has been serialised. *)
Definition cycle_with (r : response) (during : list input) (w : BackgroundWorker)
    : BackgroundWorker * list effect :=
  match request w with
  | None => (records during w, [])
  | Some b =>
      let (w', o) := settle r (records during w) in
      (w', Posted (api_url w) b :: o)
  end.

(** The pass with no callback in between. *)
Definition cycle (r : response) (w : BackgroundWorker) : BackgroundWorker * list effect :=
  cycle_with r [] w.

(** *** [send_data]: the loop

    One step of the thread at instant [now] (in seconds); [net t] is the
    answer of the endpoint to a request made at [t].  [time.sleep(5)] does
    not look at [_stop_event]: a sleeping thread moves only when its five
    seconds are over. *)
Definition send_data_step (net : Z -> response) (now : Z) (w : BackgroundWorker)
    : BackgroundWorker * list effect :=
  match data_thread w with
  | Some AtWhile =>
      if _stop_event w
      then (set_data_thread (Some Exited) w, [])
      else (set_data_thread (Some (Sleeping (now + 5))) w, [])
  | Some (Sleeping until) =>
      if now <? until then (w, [])
      else
        let (w', o) := cycle (net now) w in
        (set_data_thread (Some AtWhile) w', o)
  | Some Exited => (w, [])
  | None => (w, [])
  end.

(** [data_thread.join()] called at [now]: the caller waits while the
    thread runs on its own; the instant at which the thread has exited is
    returned with the final state.  [None] when [fuel] steps were not
    enough. *)
Fixpoint join (fuel : nat) (net : Z -> response) (now : Z) (w : BackgroundWorker)
    : option (Z * BackgroundWorker * list effect) :=
  match fuel with
  | O => None
  | S fuel' =>
      match data_thread w with
      | None => None
      | Some Exited => Some (now, w, [])
      | Some AtWhile =>
          let (w', o) := send_data_step net now w in
          match join fuel' net now w' with
          | Some (t, w'', o') => Some (t, w'', o ++ o')
          | None => None
          end
      | Some (Sleeping until) =>
          let woke := Z.max now until in
          let (w', o) := send_data_step net woke w in
          match join fuel' net woke w' with
          | Some (t, w'', o') => Some (t, w'', o ++ o')
          | None => None
          end
      end
  end.

(** *** Methods that may raise *)

Record outcome (A : Type) : Type := {
  res : result A;
  self : BackgroundWorker;
  out : list effect
}.
Arguments res {A} o.
Arguments self {A} o.
Arguments out {A} o.

Definition M (A : Type) : Type := BackgroundWorker -> outcome A.

Definition ret {A : Type} (a : A) : M A :=
  fun w => {| res := Return a; self := w; out := [] |}.

Definition bind {A B : Type} (c : M A) (k : A -> M B) : M B :=
  fun w =>
    let o := c w in
    match res o with
    | Return a =>
        let o' := k a (self o) in
        {| res := res o'; self := self o'; out := out o ++ out o' |}
    | Raise e => {| res := Raise e; self := self o; out := out o |}
    | Diverge => {| res := Diverge; self := self o; out := out o |}
    end.

Notation "x <- c ;; k" := (bind c (fun x => k))
  (at level 61, c at next level, right associativity).
Notation "c ;; k" := (bind c (fun _ => k))
  (at level 61, right associativity).

Definition modify (f : BackgroundWorker -> BackgroundWorker) : M unit :=
  fun w => {| res := Return tt; self := f w; out := [] |}.

Definition print (line : string) : M unit :=
  fun w => {| res := Return tt; self := w; out := [Printed line] |}.

Definition mouse_listener_start : M unit :=
  fun w =>
    match listener_start (mouse_listener w) with
    | Return l =>
        {| res := Return tt; self := set_mouse_listener l w;
           out := [Spawned MouseListener] |}
    | Raise e => {| res := Raise e; self := w; out := [] |}
    | Diverge => {| res := Diverge; self := w; out := [] |}
    end.

Definition keyboard_listener_start : M unit :=
  fun w =>
    match listener_start (keyboard_listener w) with
    | Return l =>
        {| res := Return tt; self := set_keyboard_listener l w;
           out := [Spawned KeyboardListener] |}
    | Raise e => {| res := Raise e; self := w; out := [] |}
    | Diverge => {| res := Diverge; self := w; out := [] |}
    end.

(** [threading.Thread(target=self.send_data)] then [.start()]: a new
    thread, about to evaluate the condition of the [while]. *)
Definition data_thread_start : M unit :=
  fun w =>
    {| res := Return tt; self := set_data_thread (Some AtWhile) w;
       out := [Spawned DataThread] |}.

(** [self.data_thread.join()]; the value is the instant of return. *)
Definition data_thread_join (fuel : nat) (net : Z -> response) (now : Z) : M Z :=
  fun w =>
    match data_thread w with
    | None => {| res := Raise AttributeError; self := w; out := [] |}
    | Some _ =>
        match join fuel net now w with
        | Some (t, w', o) => {| res := Return t; self := w'; out := o |}
        | None => {| res := Diverge; self := w; out := [] |}
        end
    end.

Definition start : M unit :=
  modify (set_stop_event false) ;;
  mouse_listener_start ;;
  keyboard_listener_start ;;
  data_thread_start ;;
  print "Background worker started.".

(** [stop()] called at [now].  The Python method returns nothing; the
    value here is the instant at which it returns. *)
Definition stop (fuel : nat) (net : Z -> response) (now : Z) : M Z :=
  modify (set_stop_event true) ;;
  modify (fun w => set_mouse_listener (listener_stop (mouse_listener w)) w) ;;
  modify (fun w => set_keyboard_listener (listener_stop (keyboard_listener w)) w) ;;
  t <- data_thread_join fuel net now ;;
  print "Background worker stopped." ;;
  ret t.

(** ** [windows_app.py]: the methods that drive the worker *)

Module WindowsApp.

Record t : Type := {
  session_id : pyval;
  user_id : pyval;
  background_worker : option BackgroundWorker
}.

Definition set_background_worker (b : option BackgroundWorker) (a : t) : t :=
  {| session_id := session_id a; user_id := user_id a; background_worker := b |}.

Record app_outcome : Type := {
  app_res : result unit;
  app : t;
  app_out : list effect
}.

(** An object without [__bool__] is true: [not self.background_worker]
    holds only for [None]. *)
Definition start_background_worker (a : t) : app_outcome :=
  match background_worker a with
  | None =>
      let o := start (init (session_id a) (user_id a) default_api_url) in
      {| app_res := res o;
         app := set_background_worker (Some (self o)) a;
         app_out :=
           Printed "Start signal received. Starting background worker..." :: out o |}
  | Some _ =>
      {| app_res := Return tt; app := a;
         app_out := [Printed "Background worker is already running."] |}
  end.

Definition stop_background_worker (fuel : nat) (net : Z -> response) (now : Z) (a : t)
    : app_outcome :=
  match background_worker a with
  | Some w =>
      let o := stop fuel net now w in
      match res o with
      | Return _ =>
          {| app_res := Return tt; app := set_background_worker None a;
             app_out := out o |}
      | Raise e =>
          {| app_res := Raise e; app := set_background_worker (Some (self o)) a;
             app_out := out o |}
      | Diverge =>
          {| app_res := Diverge; app := set_background_worker (Some (self o)) a;
             app_out := out o |}
      end
  | None => {| app_res := Return tt; app := a; app_out := [] |}
  end.

(** [__init__], the three fields that concern the worker. *)
Definition init : t :=
  {| session_id := PyStr "windows_session"; user_id := PyInt 1;
     background_worker := None |}.

End WindowsApp.

(** ** Runs: callbacks interleaved with passes of the loop body *)

Inductive op : Type :=
| Rec (i : input)
| Wake (r : response) (during : list input).

Fixpoint run (ops : list op) (w : BackgroundWorker) : BackgroundWorker * list effect :=
  match ops with
  | [] => (w, [])
  | Rec i :: ops' => run ops' (record i w)
  | Wake r during :: ops' =>
      let (w', o) := cycle_with r during w in
      let (w'', o') := run ops' w' in
      (w'', o ++ o')
  end.

(** All callbacks of a run, in the order in which they ran. *)
Definition inputs (ops : list op) : list input :=
  flat_map (fun o => match o with Rec i => [i] | Wake _ during => during end) ops.

(** A pass that no callback interrupts and whose request is answered. *)
Definition undisturbed (o : op) : bool :=
  match o with
  | Rec _ => true
  | Wake (Response _) [] => true
  | Wake _ _ => false
  end.

(** The bodies handed to [requests.post], in order. *)
Fixpoint posts (o : list effect) : list body :=
  match o with
  | [] => []
  | Posted _ b :: o' => b :: posts o'
  | _ :: o' => posts o'
  end.

(** The threads started, in order. *)
Fixpoint spawned (o : list effect) : list thread_kind :=
  match o with
  | [] => []
  | Spawned k :: o' => k :: spawned o'
  | _ :: o' => spawned o'
  end.

Fixpoint field (k : string) (b : body) : option json :=
  match b with
  | [] => None
  | (k', v) :: b' => if String.eqb k k' then Some v else field k b'
  end.

Definition events_of (k : string) (b : body) : list event :=
  match field k b with
  | Some (JList l) => l
  | _ => []
  end.

Definition mouse_data (b : body) : list event := events_of "mouse_data" b.
Definition keyboard_data (b : body) : list event := events_of "keyboard_data" b.

(** The events that the callbacks [l] build, in capture order: what they
    leave in the lists of a worker that starts with empty lists. *)
Definition blank : BackgroundWorker := init PyNone PyNone "".

Definition captured_mouse (l : list input) : list event :=
  mouse_events (records l blank).

Definition captured_keys (l : list input) : list event :=
  keyboard_events (records l blank).






(** Whether a pass occurs in a run, the callbacks that ran before its last
    pass began, and those that ran after. *)
Fixpoint woken (ops : list op) : bool :=
  match ops with
  | [] => false
  | Rec _ :: ops' => woken ops'
  | Wake _ _ :: _ => true
  end.

Fixpoint flushed (ops : list op) : list input :=
  match ops with
  | [] => []
  | Rec i :: ops' => if woken ops' then i :: flushed ops' else flushed ops'
  | Wake _ during :: ops' => if woken ops' then during ++ flushed ops' else []
  end.

Fixpoint pending (ops : list op) : list input :=
  match ops with
  | [] => []
  | Rec i :: ops' => if woken ops' then pending ops' else i :: pending ops'
  | Wake _ during :: ops' => if woken ops' then pending ops' else during ++ pending ops'
  end.

(** A body with the four fields of [data_to_send], for a worker built
    with [sid] and [uid]. *)
Definition well_formed (sid uid : pyval) (b : body) : Prop :=
  exists m k,
    b = [("session_id", JVal sid); ("user_id", JVal uid);
         ("mouse_data", JList m); ("keyboard_data", JList k)].

(** The worker after the first three statements of [stop]: flag set, both
    listeners told to stop. *)
Definition signalled (w : BackgroundWorker) : BackgroundWorker :=
  set_keyboard_listener (listener_stop (keyboard_listener w))
    (set_mouse_listener (listener_stop (mouse_listener w)) (set_stop_event true w)).

(** ** Calls on one worker, in any order *)

(** What can happen to a worker: its two methods, a callback run by a
    listener thread, a step of the thread of [send_data]. *)
Inductive call : Type :=
| CallStart
| CallStop (net : Z -> response) (now : Z)
| Callback (i : input)
| ThreadStep (net : Z -> response) (now : Z).

(** Three steps of the thread are all that [join] needs once the flag is
    set (lemma [stop_started]). *)
Definition apply_call (c : call) (w : BackgroundWorker) : BackgroundWorker * list effect :=
  match c with
  | CallStart => (self (start w), out (start w))
  | CallStop net now => (self (stop 3 net now w), out (stop 3 net now w))
  | Callback i => (record i w, [])
  | ThreadStep net now => send_data_step net now w
  end.

Fixpoint apply_calls (cs : list call) (w : BackgroundWorker) : BackgroundWorker * list effect :=
  match cs with
  | [] => (w, [])
  | c :: cs' =>
      let (w', o) := apply_call c w in
      let (w'', o') := apply_calls cs' w' in
      (w'', o ++ o')
  end.

(** The requests made, with the address they go to. *)
Fixpoint post_urls (o : list effect) : list string :=
  match o with
  | [] => []
  | Posted url _ :: o' => url :: post_urls o'
  | _ :: o' => post_urls o'
  end.

(** The shapes of the dict literals of the callbacks. *)
Definition mouse_shape (e : event) : Prop :=
  (exists x y ts,
      e = [("type", PyStr "move"); ("x", PyInt x); ("y", PyInt y);
           ("timestamp", PyFloat ts)]) \/
  (exists x y button pressed ts,
      e = [("type", PyStr "click"); ("x", PyInt x); ("y", PyInt y);
           ("button", PyStr (str_button button)); ("pressed", PyBool pressed);
           ("timestamp", PyFloat ts)]) \/
  (exists x y dx dy ts,
      e = [("type", PyStr "scroll"); ("x", PyInt x); ("y", PyInt y);
           ("dx", PyInt dx); ("dy", PyInt dy); ("timestamp", PyFloat ts)]).

Definition key_shape (e : event) : Prop :=
  exists kind k ts,
    (kind = "press" \/ kind = "release") /\
    e = [("type", PyStr kind); ("key", k); ("timestamp", PyFloat ts)].

(** A run in which every request raises. *)
Definition raising (o : op) : bool :=
  match o with
  | Rec _ => true
  | Wake (RequestException _) _ => true
  | Wake (Response _) _ => false
  end.

(** ** [windows_app.py]: [logout] and runs of the controller *)

(** [logout]: the line printed, [stop_background_worker], then
    [self.app.quit()], which is reached when the stop has returned. *)
Record logout_outcome : Type := {
  after : WindowsApp.app_outcome;
  quit : bool
}.

Definition logout (fuel : nat) (net : Z -> response) (now : Z) (a : WindowsApp.t)
    : logout_outcome :=
  let o := WindowsApp.stop_background_worker fuel net now a in
  {| after :=
       {| WindowsApp.app_res := WindowsApp.app_res o;
          WindowsApp.app := WindowsApp.app o;
          WindowsApp.app_out :=
            Printed "Logout triggered. Stopping background worker and exiting."
              :: WindowsApp.app_out o |};
     quit := match WindowsApp.app_res o with
             | Return _ => true
             | _ => false
             end |}.

(** What can happen to the controller: the start signal, a stop, and the
    threads of the worker it holds at work. *)
Inductive app_call : Type :=
| AppStart
| AppStop (net : Z -> response) (now : Z)
| AppCallback (i : input)
| AppThreadStep (net : Z -> response) (now : Z).

Definition apply_app_call (c : app_call) (a : WindowsApp.t) : WindowsApp.t * list effect :=
  match c with
  | AppStart =>
      (WindowsApp.app (WindowsApp.start_background_worker a),
       WindowsApp.app_out (WindowsApp.start_background_worker a))
  | AppStop net now =>
      (WindowsApp.app (WindowsApp.stop_background_worker 3 net now a),
       WindowsApp.app_out (WindowsApp.stop_background_worker 3 net now a))
  | AppCallback i =>
      match WindowsApp.background_worker a with
      | Some w => (WindowsApp.set_background_worker (Some (record i w)) a, [])
      | None => (a, [])
      end
  | AppThreadStep net now =>
      match WindowsApp.background_worker a with
      | Some w =>
          (WindowsApp.set_background_worker (Some (fst (send_data_step net now w))) a,
           snd (send_data_step net now w))
      | None => (a, [])
      end
  end.

Fixpoint apply_app_calls (cs : list app_call) (a : WindowsApp.t) : WindowsApp.t * list effect :=
  match cs with
  | [] => (a, [])
  | c :: cs' =>
      let (a', o) := apply_app_call c a in
      let (a'', o') := apply_app_calls cs' a' in
      (a'', o ++ o')
  end.

(** The three states of the life of a worker: built, started, stopped. *)
Definition consistent (w : BackgroundWorker) : Prop :=
  match mouse_listener w, keyboard_listener w, data_thread w with
  | Created, Created, None => True
  | Listening, Listening, Some p => p <> Exited /\ _stop_event w = false
  | Detached, Detached, Some Exited => True
  | _, _, _ => False
  end.

Definition built (w : BackgroundWorker) : bool :=
  match mouse_listener w with
  | Created => true
  | _ => false
  end.

(** The worker that the controller holds, if any, is a started one, built
    with the identifiers of the controller and the default address. *)
Definition app_consistent (a : WindowsApp.t) : Prop :=
  match WindowsApp.background_worker a with
  | None => True
  | Some w =>
      consistent w /\ mouse_listener w = Listening /\
      session_id w = WindowsApp.session_id a /\
      user_id w = WindowsApp.user_id a /\
      api_url w = default_api_url
  end.

(** A stretch of the life of a started worker: callbacks and steps of the
    thread, the steps at instants that do not go back, none before [t0]. *)
Fixpoint in_time_order (t0 : Z) (cs : list call) : bool :=
  match cs with
  | [] => true
  | ThreadStep _ now :: cs' => (t0 <=? now) && in_time_order now cs'
  | Callback _ :: cs' => in_time_order t0 cs'
  | _ :: _ => false
  end.

(** The instants of the steps of the thread that made a request. *)
Fixpoint request_times (cs : list call) (w : BackgroundWorker) : list Z :=
  match cs with
  | [] => []
  | c :: cs' =>
      match c, posts (snd (apply_call c w)) with
      | ThreadStep _ now, _ :: _ => now :: request_times cs' (fst (apply_call c w))
      | _, _ => request_times cs' (fst (apply_call c w))
      end
  end.

(** Instants at least five seconds apart, each from the next. *)
Fixpoint spaced (l : list Z) : Prop :=
  match l with
  | a :: (b :: _) as l' => a + 5 <= b /\ spaced l'
  | _ => True
  end.

(** The earliest instant at which the thread can make its next request,
    when no step is taken before [t0]. *)
Definition next_request (t0 : Z) (w : BackgroundWorker) : Z :=
  match data_thread w with
  | Some (Sleeping until) => until
  | _ => t0 + 5
  end.

(** * Properties *)

(** ** The callbacks *)

Lemma record_fields (i : input) (w : BackgroundWorker) :
  session_id (record i w) = session_id w /\
  user_id (record i w) = user_id w /\
  api_url (record i w) = api_url w /\
  _stop_event (record i w) = _stop_event w /\
  mouse_listener (record i w) = mouse_listener w /\
  keyboard_listener (record i w) = keyboard_listener w /\
  data_thread (record i w) = data_thread w.
Proof.
  destruct i; cbn; unfold on_press, on_release, getattr_char;
    try destruct (key_char key); cbn; repeat split; reflexivity.
Qed.

Lemma record_mouse (i : input) (w : BackgroundWorker) :
  mouse_events (record i w) = mouse_events w ++ captured_mouse [i].
Proof.
  unfold captured_mouse, records.
  unfold captured_keys, records.
  destruct i; cbn; unfold on_press, on_release, getattr_char;
    try destruct (key_char key); cbn; try reflexivity;
    now rewrite app_nil_r.
Qed.

Lemma record_keys (i : input) (w : BackgroundWorker) :
  keyboard_events (record i w) = keyboard_events w ++ captured_keys [i].
Proof.
  unfold captured_keys, records.
  destruct i; cbn; unfold on_press, on_release, getattr_char;
    try destruct (key_char key); cbn; try reflexivity;
    now rewrite app_nil_r.
Qed.

Lemma records_app (l1 l2 : list input) (w : BackgroundWorker) :
  records (l1 ++ l2) w = records l2 (records l1 w).
Proof. unfold records. apply fold_left_app. Qed.

Lemma records_mouse (l : list input) (w : BackgroundWorker) :
  mouse_events (records l w) = mouse_events w ++ captured_mouse l.
Proof.
  revert w. induction l as [|i l IH]; intros w.
  - cbn. now rewrite app_nil_r.
  - unfold captured_mouse.
    change (records (i :: l) w) with (records l (record i w)).
    change (records (i :: l) blank) with (records l (record i blank)).
    rewrite (IH (record i w)), (IH (record i blank)), !record_mouse.
    cbn [blank init mouse_events app]. now rewrite app_assoc.
Qed.

Lemma records_keys (l : list input) (w : BackgroundWorker) :
  keyboard_events (records l w) = keyboard_events w ++ captured_keys l.
Proof.
  revert w. induction l as [|i l IH]; intros w.
  - cbn. now rewrite app_nil_r.
  - unfold captured_keys.
    change (records (i :: l) w) with (records l (record i w)).
    change (records (i :: l) blank) with (records l (record i blank)).
    rewrite (IH (record i w)), (IH (record i blank)), !record_keys.
    cbn [blank init keyboard_events app]. now rewrite app_assoc.
Qed.

Lemma captured_mouse_app (l1 l2 : list input) :
  captured_mouse (l1 ++ l2) = captured_mouse l1 ++ captured_mouse l2.
Proof.
  unfold captured_mouse at 1. rewrite records_app, records_mouse. reflexivity.
Qed.

Lemma captured_keys_app (l1 l2 : list input) :
  captured_keys (l1 ++ l2) = captured_keys l1 ++ captured_keys l2.
Proof.
  unfold captured_keys at 1. rewrite records_app, records_keys. reflexivity.
Qed.

Lemma records_fields (l : list input) (w : BackgroundWorker) :
  session_id (records l w) = session_id w /\
  user_id (records l w) = user_id w /\
  api_url (records l w) = api_url w /\
  _stop_event (records l w) = _stop_event w /\
  mouse_listener (records l w) = mouse_listener w /\
  keyboard_listener (records l w) = keyboard_listener w /\
  data_thread (records l w) = data_thread w.
Proof.
  revert w. induction l as [|i l IH]; intros w; cbn.
  - repeat split.
  - specialize (IH (record i w)). fold (records l (record i w)) in *.
    destruct (record_fields i w) as (a & b & c & d & e & f & g).
    destruct IH as (a' & b' & c' & d' & e' & f' & g').
    repeat split; congruence.
Qed.

(** ** One pass of the loop body *)

Lemma posts_app (o1 o2 : list effect) : posts (o1 ++ o2) = posts o1 ++ posts o2.
Proof.
  induction o1 as [|e o1 IH]; cbn; [reflexivity|].
  destruct e; cbn; now rewrite IH.
Qed.

Lemma request_none (w : BackgroundWorker) :
  request w = None <-> mouse_events w = [] /\ keyboard_events w = [].
Proof.
  unfold request.
  destruct (mouse_events w), (keyboard_events w); cbn; split;
    [ intros _; now split | reflexivity
    | discriminate | intros [_ H]; discriminate
    | discriminate | intros [H _]; discriminate
    | discriminate | intros [H _]; discriminate ].
Qed.

Lemma request_some (w : BackgroundWorker) (b : body) :
  request w = Some b -> b = data_to_send w.
Proof.
  unfold request.
  destruct (truth (mouse_events w) || truth (keyboard_events w)); congruence.
Qed.

Lemma data_to_send_mouse (w : BackgroundWorker) : mouse_data (data_to_send w) = mouse_events w.
Proof. reflexivity. Qed.

Lemma data_to_send_keys (w : BackgroundWorker) :
  keyboard_data (data_to_send w) = keyboard_events w.
Proof. reflexivity. Qed.

(** An answered pass with no callback in between moves the content of the
    two lists into at most one request body. *)
Lemma cycle_answered (s : Z) (w : BackgroundWorker) :
  List.concat (map mouse_data (posts (snd (cycle (Response s) w))))
    ++ mouse_events (fst (cycle (Response s) w)) = mouse_events w /\
  List.concat (map keyboard_data (posts (snd (cycle (Response s) w))))
    ++ keyboard_events (fst (cycle (Response s) w)) = keyboard_events w.
Proof.
  unfold cycle, cycle_with.
  destruct (request w) as [b|] eqn:E.
  - apply request_some in E. subst b. cbn.
    rewrite !app_nil_r. split; reflexivity.
  - apply request_none in E. destruct E as [E1 E2]. cbn. now rewrite E1, E2.
Qed.

Lemma cycle_answered_empties (s : Z) (w : BackgroundWorker) :
  mouse_events (fst (cycle (Response s) w)) = [] /\
  keyboard_events (fst (cycle (Response s) w)) = [].
Proof.
  unfold cycle, cycle_with.
  destruct (request w) as [b|] eqn:E; cbn.
  - split; reflexivity.
  - now apply request_none in E.
Qed.

(** A pass on two empty lists does nothing at all. *)
Lemma cycle_idle (r : response) (w : BackgroundWorker) :
  mouse_events w = [] -> keyboard_events w = [] -> cycle r w = (w, []).
Proof.
  intros H1 H2. unfold cycle, cycle_with.
  replace (request w) with (@None body); [reflexivity|].
  symmetry. now apply request_none.
Qed.

(** A pass whose request raises: one POST, one printed line, the worker
    as it was. *)
Lemma cycle_raised (msg : string) (w : BackgroundWorker) (b : body) :
  request w = Some b ->
  cycle (RequestException msg) w =
    (w, [Posted (api_url w) b; Printed ("Could not send data: " ++ msg)%string]).
Proof.
  intros H. unfold cycle, cycle_with. rewrite H. reflexivity.
Qed.

Lemma run_app (ops1 ops2 : list op) (w : BackgroundWorker) :
  run (ops1 ++ ops2) w =
    (fst (run ops2 (fst (run ops1 w))),
     snd (run ops1 w) ++ snd (run ops2 (fst (run ops1 w)))).
Proof.
  revert w. induction ops1 as [|o ops1 IH]; intros w; cbn.
  - now destruct (run ops2 w).
  - destruct o as [i|r during].
    + apply IH.
    + destruct (cycle_with r during w) as [w' o1].
      rewrite IH. destruct (run ops1 w') as [w1 o2]. cbn.
      destruct (run ops2 w1) as [w2 o3]. cbn. now rewrite app_assoc.
Qed.

(** ** C1: what the batches hold *)

(** What the bodies hold and what the lists hold, put end to end. *)
Lemma posted_then_buffer (ops : list op) (w : BackgroundWorker) :
  forallb undisturbed ops = true ->
  List.concat (map mouse_data (posts (snd (run ops w)))) ++ mouse_events (fst (run ops w))
    = mouse_events w ++ captured_mouse (inputs ops) /\
  List.concat (map keyboard_data (posts (snd (run ops w)))) ++ keyboard_events (fst (run ops w))
    = keyboard_events w ++ captured_keys (inputs ops).
Proof.
  revert w. induction ops as [|o ops IH]; intros w H.
  - cbn. now rewrite !app_nil_r.
  - cbn [forallb] in H. apply andb_true_iff in H. destruct H as [Ho H].
    destruct o as [i|r during].
    + cbn [run inputs flat_map].
      destruct (IH (record i w) H) as [IHm IHk].
      fold (inputs ops).
      rewrite IHm, IHk, record_mouse, record_keys.
      rewrite (captured_mouse_app [i]), (captured_keys_app [i]).
      now rewrite !app_assoc.
    + destruct r as [s|msg]; [|discriminate].
      destruct during; [|discriminate].
      change (run (Wake (Response s) [] :: ops) w)
        with (run ([Wake (Response s) []] ++ ops) w).
      rewrite run_app.
      assert (E : run [Wake (Response s) []] w =
                  (fst (cycle (Response s) w), snd (cycle (Response s) w))).
      { cbn. unfold cycle. destruct (cycle_with (Response s) [] w). cbn.
        now rewrite app_nil_r. }
      rewrite E. cbn [fst snd].
      destruct (IH (fst (cycle (Response s) w)) H) as [IHm IHk].
      destruct (cycle_answered s w) as [Cm Ck].
      cbn [inputs flat_map app]. fold (inputs ops).
      rewrite !posts_app, !map_app, !concat_app, <- !app_assoc.
      rewrite IHm, IHk, !app_assoc, Cm, Ck. split; reflexivity.
Qed.

(** Where the events are: those captured before the last pass began are
    in the bodies, those captured after it are in the lists. *)
Lemma flushed_and_pending (ops : list op) :
  forall w : BackgroundWorker,
    forallb undisturbed ops = true ->
    List.concat (map mouse_data (posts (snd (run ops w))))
      = (if woken ops then mouse_events w else []) ++ captured_mouse (flushed ops) /\
    mouse_events (fst (run ops w))
      = (if woken ops then [] else mouse_events w) ++ captured_mouse (pending ops) /\
    List.concat (map keyboard_data (posts (snd (run ops w))))
      = (if woken ops then keyboard_events w else []) ++ captured_keys (flushed ops) /\
    keyboard_events (fst (run ops w))
      = (if woken ops then [] else keyboard_events w) ++ captured_keys (pending ops).
Proof.
  induction ops as [|o ops IH]; intros w H.
  - cbn. now rewrite !app_nil_r.
  - cbn [forallb] in H. apply andb_true_iff in H. destruct H as [Ho H].
    destruct o as [i|r during].
    + cbn [run woken flushed pending].
      destruct (IH (record i w) H) as (Pm & Bm & Pk & Bk).
      rewrite Pm, Bm, Pk, Bk, record_mouse, record_keys.
      destruct (woken ops).
      * change (i :: flushed ops) with ([i] ++ flushed ops).
        rewrite captured_mouse_app, captured_keys_app, <- !app_assoc.
        repeat split; reflexivity.
      * change (i :: pending ops) with ([i] ++ pending ops).
        rewrite captured_mouse_app, captured_keys_app, <- !app_assoc.
        repeat split; reflexivity.
    + destruct r as [s|msg]; [|discriminate].
      destruct during; [|discriminate].
      change (run (Wake (Response s) [] :: ops) w)
        with (run ([Wake (Response s) []] ++ ops) w).
      rewrite run_app.
      assert (E : run [Wake (Response s) []] w =
                  (fst (cycle (Response s) w), snd (cycle (Response s) w))).
      { cbn. unfold cycle. destruct (cycle_with (Response s) [] w). cbn.
        now rewrite app_nil_r. }
      rewrite E. cbn [fst snd woken flushed pending app].
      destruct (IH (fst (cycle (Response s) w)) H) as (Pm & Bm & Pk & Bk).
      destruct (cycle_answered s w) as [Cm Ck].
      destruct (cycle_answered_empties s w) as [Em Ek].
      rewrite Em in Cm, Pm, Bm. rewrite Ek in Ck, Pk, Bk.
      rewrite app_nil_r in Cm, Ck.
      rewrite !posts_app, !map_app, !concat_app, Pm, Bm, Pk, Bk, Cm, Ck.
      destruct (woken ops) eqn:W; cbn [app]; repeat split; try reflexivity.
      * clear - W. induction ops as [|[i|r d] ops IH]; cbn in *;
          [now rewrite app_nil_r | rewrite W; now apply IH | discriminate].
      * clear - W. induction ops as [|[i|r d] ops IH]; cbn in *;
          [now rewrite app_nil_r | rewrite W; now apply IH | discriminate].
Qed.

(** C1, as the code has it.  In a run whose passes are not interrupted by
    a callback and whose requests are all answered, the bodies posted, put
    end to end, followed by what is still in the lists, are the events
    captured, in capture order, for the pointer events and for the key
    events.  The bodies hold the events captured before the last pass
    began, the lists those captured after it.  So no event is in two
    bodies, every body keeps the capture order, and an event is in no body
    only as long as no pass has followed its capture. *)
Theorem batches_then_buffer_are_the_capture (ops : list op) (w : BackgroundWorker) :
  forallb undisturbed ops = true ->
  List.concat (map mouse_data (posts (snd (run ops w)))) ++ mouse_events (fst (run ops w))
    = mouse_events w ++ captured_mouse (inputs ops) /\
  List.concat (map keyboard_data (posts (snd (run ops w)))) ++ keyboard_events (fst (run ops w))
    = keyboard_events w ++ captured_keys (inputs ops) /\
  List.concat (map mouse_data (posts (snd (run ops w))))
    = (if woken ops then mouse_events w else []) ++ captured_mouse (flushed ops) /\
  mouse_events (fst (run ops w))
    = (if woken ops then [] else mouse_events w) ++ captured_mouse (pending ops) /\
  List.concat (map keyboard_data (posts (snd (run ops w))))
    = (if woken ops then keyboard_events w else []) ++ captured_keys (flushed ops) /\
  keyboard_events (fst (run ops w))
    = (if woken ops then [] else keyboard_events w) ++ captured_keys (pending ops).
Proof.
  intros H.
  destruct (posted_then_buffer ops w H) as [Am Ak].
  destruct (flushed_and_pending ops w H) as (Pm & Bm & Pk & Bk).
  repeat split; assumption.
Qed.

Lemma batches_then_buffer_witness :
  let ops := [Rec (Move 10 20 1); Rec (Press (KeyCode_from_char "a") 2);
              Wake (Response 200) []; Rec (Move 11 20 3)] in
  let w := init (PyStr "s1") (PyInt 1) default_api_url in
  List.concat (map mouse_data (posts (snd (run ops w)))) ++ mouse_events (fst (run ops w))
    = mouse_events w ++ captured_mouse (inputs ops) /\
  List.concat (map keyboard_data (posts (snd (run ops w)))) ++ keyboard_events (fst (run ops w))
    = keyboard_events w ++ captured_keys (inputs ops) /\
  List.concat (map mouse_data (posts (snd (run ops w))))
    = mouse_events w ++ captured_mouse [Move 10 20 1] /\
  mouse_events (fst (run ops w)) = captured_mouse [Move 11 20 3] /\
  List.concat (map keyboard_data (posts (snd (run ops w))))
    = keyboard_events w ++ captured_keys [Press (KeyCode_from_char "a") 2] /\
  keyboard_events (fst (run ops w)) = [].
Proof.
  intros ops w. apply (batches_then_buffer_are_the_capture ops w). reflexivity.
Defined.

(** C1 as stated fails in two ways.  An event captured while a request is
    in flight is dropped when the lists are rebound: it is in no body,
    whatever passes follow.  An event whose request raised stays in the
    list and is posted again by the next pass: it is in two bodies. *)
Lemma event_lost_or_posted_twice :
  let w := init (PyStr "s1") (PyInt 1) default_api_url in
  let e1 := [("type", PyStr "move"); ("x", PyInt 1); ("y", PyInt 1);
             ("timestamp", PyFloat 100)] in
  let e2 := [("type", PyStr "move"); ("x", PyInt 2); ("y", PyInt 2);
             ("timestamp", PyFloat 101)] in
  let lost := [Rec (Move 1 1 100); Wake (Response 200) [Move 2 2 101];
               Wake (Response 200) []] in
  let twice := [Rec (Move 1 1 100); Wake (RequestException "refused") [];
                Wake (Response 200) []] in
  (captured_mouse (inputs lost) = [e1; e2] /\
   map mouse_data (posts (snd (run lost w))) = [[e1]] /\
   mouse_events (fst (run lost w)) = []) /\
  (captured_mouse (inputs twice) = [e1] /\
   map mouse_data (posts (snd (run twice w))) = [[e1]; [e1]]).
Proof. cbv zeta. repeat split; reflexivity. Qed.

(** ** C2, C9: a request that raises *)

(** C9.  When the request of a pass raises, the two lists are as they
    were before the pass; the lists are emptied by a pass exactly when its
    request was answered; and the body of the next pass starts with every
    event of the failed body, whatever was captured in between. *)
Theorem raised_request_keeps_events (msg : string) (w : BackgroundWorker) (b : body) :
  request w = Some b ->
  fst (cycle (RequestException msg) w) = w /\
  (forall r : response,
      mouse_events (fst (cycle r w)) = [] /\ keyboard_events (fst (cycle r w)) = []
      <-> exists s, r = Response s) /\
  (forall (l : list input) (r : response) (during : list input),
      exists b',
        posts (snd (cycle_with r during
                      (records l (fst (cycle (RequestException msg) w))))) = [b'] /\
        mouse_data b' = mouse_data b ++ captured_mouse l /\
        keyboard_data b' = keyboard_data b ++ captured_keys l).
Proof.
  intros H. rewrite (cycle_raised msg w b H). cbn [fst].
  split; [reflexivity|]. split.
  - intros r. split.
    + intros [Hm Hk]. destruct r as [s|msg']; [now exists s|].
      rewrite (cycle_raised msg' w b H) in Hm, Hk. cbn [fst] in Hm, Hk.
      assert (N : request w = None) by now apply request_none.
      congruence.
    + intros [s ->]. apply cycle_answered_empties.
  - intros l r during.
    pose proof (request_some w b H) as ->.
    exists (data_to_send (records l w)).
    assert (R : request (records l w) = Some (data_to_send (records l w))).
    { destruct (request (records l w)) as [b'|] eqn:E.
      - now rewrite (request_some _ _ E).
      - apply request_none in E. destruct E as [E1 E2].
        rewrite records_mouse in E1. rewrite records_keys in E2.
        apply app_eq_nil in E1, E2.
        assert (N : request w = None) by (apply request_none; tauto).
        congruence. }
    unfold cycle_with. rewrite R.
    destruct (settle r (records during (records l w))) as [w' o] eqn:S.
    split.
    + destruct r; cbn in S; inversion S; reflexivity.
    + rewrite !data_to_send_mouse, !data_to_send_keys, records_mouse, records_keys.
      split; reflexivity.
Qed.

Lemma raised_request_keeps_events_witness :
  let w := on_move 10 20 7 (init (PyStr "s1") (PyInt 1) default_api_url) in
  fst (cycle (RequestException "refused") w) = w /\
  (forall r : response,
      mouse_events (fst (cycle r w)) = [] /\ keyboard_events (fst (cycle r w)) = []
      <-> exists s, r = Response s) /\
  (forall (l : list input) (r : response) (during : list input),
      exists b',
        posts (snd (cycle_with r during
                      (records l (fst (cycle (RequestException "refused") w))))) = [b'] /\
        mouse_data b' = mouse_data (data_to_send w) ++ captured_mouse l /\
        keyboard_data b' = keyboard_data (data_to_send w) ++ captured_keys l).
Proof.
  intros w. apply (raised_request_keeps_events "refused" w (data_to_send w)).
  reflexivity.
Defined.

(** C2 as stated fails: after a request that raised, the event is still
    in the list, and the next pass posts it again. *)
Lemma raised_batch_is_kept_and_sent_again :
  let e := [("type", PyStr "move"); ("x", PyInt 10); ("y", PyInt 20);
            ("timestamp", PyFloat 7)] in
  let w := on_move 10 20 7 (init (PyStr "s1") (PyInt 1) default_api_url) in
  let w1 := fst (cycle (RequestException "refused") w) in
  map mouse_data (posts (snd (cycle (RequestException "refused") w))) = [[e]] /\
  mouse_events w1 = [e] /\
  map mouse_data (posts (snd (cycle (Response 200) w1))) = [[e]].
Proof. cbv zeta. repeat split; reflexivity. Qed.

(** C2, as the code has it.  A pass whose request raises makes that one
    POST and no other, prints the failure and leaves the worker as it was;
    the next pass posts the same body again, and empties the lists when it
    is answered.  An answer with an error status is not an exception: the
    lists are emptied, and the pass after it posts nothing. *)
Theorem failed_request_policy (w : BackgroundWorker) (b : body) (msg : string) (s : Z)
    (r : response) :
  request w = Some b ->
  cycle (RequestException msg) w =
    (w, [Posted (api_url w) b; Printed ("Could not send data: " ++ msg)%string]) /\
  cycle (Response s) (fst (cycle (RequestException msg) w)) =
    (set_keyboard_events [] (set_mouse_events [] w), [Posted (api_url w) b]) /\
  cycle r (fst (cycle (Response s) w)) = (fst (cycle (Response s) w), []).
Proof.
  intros H. rewrite (cycle_raised msg w b H). cbn [fst].
  split; [reflexivity|]. split.
  - unfold cycle, cycle_with. rewrite H. reflexivity.
  - apply cycle_idle; apply cycle_answered_empties.
Qed.

Lemma failed_request_policy_witness :
  let w := on_move 10 20 7 (init (PyStr "s1") (PyInt 1) default_api_url) in
  let b := data_to_send w in
  cycle (RequestException "refused") w =
    (w, [Posted (api_url w) b; Printed "Could not send data: refused"]) /\
  cycle (Response 200) (fst (cycle (RequestException "refused") w)) =
    (set_keyboard_events [] (set_mouse_events [] w), [Posted (api_url w) b]) /\
  cycle (Response 200) (fst (cycle (Response 500) w)) = (fst (cycle (Response 500) w), []).
Proof.
  intros w b.
  apply (failed_request_policy w b "refused" 200 (Response 200)).
  reflexivity.
Defined.

(** ** C6: a wakeup on empty lists *)

Lemma send_data_step_idle (net : Z -> response) (now : Z) (w : BackgroundWorker) :
  mouse_events w = [] -> keyboard_events w = [] ->
  posts (snd (send_data_step net now w)) = [].
Proof.
  intros H1 H2. unfold send_data_step.
  destruct (data_thread w) as [[|until|]|]; try reflexivity.
  - now destruct (_stop_event w).
  - destruct (now <? until); [reflexivity|].
    now rewrite (cycle_idle (net now) w H1 H2).
Qed.

(** C6 as stated fails in its second half: no event is captured between
    the two wakeups, yet the second one posts, because the request of the
    first one raised. *)
Lemma second_wakeup_posts_after_a_raise :
  let e := [("type", PyStr "move"); ("x", PyInt 10); ("y", PyInt 20);
            ("timestamp", PyFloat 7)] in
  let w := on_move 10 20 7 (init (PyStr "s1") (PyInt 1) default_api_url) in
  let first := cycle (RequestException "refused") w in
  let second := cycle (Response 200) (fst first) in
  fst first = records [] w /\
  map mouse_data (posts (snd second)) = [[e]] /\
  posts (snd second) <> [].
Proof. cbv zeta. repeat split; try reflexivity. discriminate. Qed.

(** C6, as the code has it.  A wakeup that finds both lists empty makes no
    POST, as a pass of the body and as a step of the thread.  When a
    wakeup's pass was answered, not interrupted by a callback, and nothing
    is captured before the next wakeup, that next wakeup makes no POST. *)
Theorem idle_wakeup_posts_nothing (w : BackgroundWorker) (r : response)
    (during : list input) (net : Z -> response) (now : Z) (s : Z) :
  (mouse_events w = [] -> keyboard_events w = [] ->
   posts (snd (cycle_with r during w)) = [] /\
   posts (snd (send_data_step net now w)) = []) /\
  posts (snd (cycle_with r during (fst (cycle (Response s) w)))) = [].
Proof.
  assert (I : forall w', mouse_events w' = [] -> keyboard_events w' = [] ->
                         posts (snd (cycle_with r during w')) = []).
  { intros w' H1 H2. unfold cycle_with.
    replace (request w') with (@None body); [reflexivity|].
    symmetry. now apply request_none. }
  split.
  - intros H1 H2. split; [now apply I | now apply send_data_step_idle].
  - apply I; apply cycle_answered_empties.
Qed.

Lemma idle_wakeup_posts_nothing_witness :
  let w := set_data_thread (Some (Sleeping 5)) (init (PyStr "s1") (PyInt 1) default_api_url) in
  let net := fun _ : Z => Response 200 in
  (posts (snd (cycle_with (Response 200) [] w)) = [] /\
   posts (snd (send_data_step net 5 w)) = []) /\
  posts (snd (cycle_with (Response 200) []
                (fst (cycle (Response 200) (on_move 10 20 7 w))))) = [].
Proof.
  intros w net. split.
  - apply (idle_wakeup_posts_nothing w (Response 200) [] net 5 200); reflexivity.
  - apply (idle_wakeup_posts_nothing (on_move 10 20 7 w) (Response 200) [] net 5 200).
Defined.

(** ** C8: the body of a request *)

Lemma cycle_with_fields (r : response) (during : list input) (w : BackgroundWorker) :
  session_id (fst (cycle_with r during w)) = session_id w /\
  user_id (fst (cycle_with r during w)) = user_id w.
Proof.
  unfold cycle_with.
  destruct (records_fields during w) as (a & b & _).
  destruct (request w); [|now split].
  destruct r; cbn; now split.
Qed.

Lemma cycle_with_posts (r : response) (during : list input) (w : BackgroundWorker) :
  posts (snd (cycle_with r during w)) = [] \/
  posts (snd (cycle_with r during w)) = [data_to_send w].
Proof.
  unfold cycle_with. destruct (request w) as [b|] eqn:E; [|now left].
  right. apply request_some in E. subst b. destruct r; reflexivity.
Qed.

Lemma run_posts_well_formed (ops : list op) (w : BackgroundWorker) :
  Forall (well_formed (session_id w) (user_id w)) (posts (snd (run ops w))).
Proof.
  revert w. induction ops as [|o ops IH]; intros w; cbn.
  - constructor.
  - destruct o as [i|r during].
    + destruct (record_fields i w) as (a & b & _).
      specialize (IH (record i w)). now rewrite a, b in IH.
    + destruct (cycle_with_fields r during w) as [a b].
      pose proof (cycle_with_posts r during w) as P.
      destruct (cycle_with r during w) as [w' o1]. cbn [fst snd] in *.
      specialize (IH w'). rewrite a, b in IH.
      destruct (run ops w') as [w'' o2]. cbn [snd] in *.
      rewrite posts_app. apply Forall_app. split; [|exact IH].
      destruct P as [-> | ->]; constructor; [|constructor].
      exists (mouse_events w), (keyboard_events w). reflexivity.
Qed.

(** C8.  Every body posted by a worker built with [sid] and [uid] has the
    four fields [session_id], [user_id], [mouse_data], [keyboard_data], in
    this order and no other, with [sid] and [uid] in the first two.  For
    the worker of the scenario, holding one move and one press, a pass
    whose request is answered makes one POST, with the two events in
    [mouse_data] and [keyboard_data], and leaves both lists empty. *)
Theorem posted_body_and_scenario :
  (forall (sid uid : pyval) (url : string) (ops : list op),
      Forall (well_formed sid uid) (posts (snd (run ops (init sid uid url))))) /\
  (forall (url : string) (t0 t1 status : Z),
      let w := on_press (KeyCode_from_char "a") t1
                 (on_move 10 20 t0 (init (PyStr "s1") (PyInt 1) url)) in
      snd (cycle (Response status) w) =
        [Posted url
           [("session_id", JVal (PyStr "s1"));
            ("user_id", JVal (PyInt 1));
            ("mouse_data",
             JList [[("type", PyStr "move"); ("x", PyInt 10); ("y", PyInt 20);
                     ("timestamp", PyFloat t0)]]);
            ("keyboard_data",
             JList [[("type", PyStr "press"); ("key", PyStr "a");
                     ("timestamp", PyFloat t1)]])]] /\
      mouse_events (fst (cycle (Response status) w)) = [] /\
      keyboard_events (fst (cycle (Response status) w)) = []).
Proof.
  split.
  - intros sid uid url ops. apply (run_posts_well_formed ops (init sid uid url)).
  - intros url t0 t1 status w. repeat split; reflexivity.
Qed.

(** ** C7, C10: the key of a key event *)




(** C10.  For a key object whose attribute [char] is [None], [on_press]
    and [on_release] append an event whose key is [None]; the name of the
    key is not used. *)
Theorem char_none_is_stored_as_none (key : KeyObj) (ts : Z) (w : BackgroundWorker) :
  key_char key = Some PyNone ->
  keyboard_events (on_press key ts w) =
    keyboard_events w ++
      [[("type", PyStr "press"); ("key", PyNone); ("timestamp", PyFloat ts)]] /\
  keyboard_events (on_release key ts w) =
    keyboard_events w ++
      [[("type", PyStr "release"); ("key", PyNone); ("timestamp", PyFloat ts)]] /\
  getattr_char key <> Raise AttributeError /\
  PyNone <> PyStr (key_str key).
Proof.
  intros H. unfold on_press, on_release, getattr_char. rewrite H.
  repeat split; try reflexivity; discriminate.
Qed.

Lemma char_none_is_stored_as_none_witness :
  let key := KeyCode_from_vk "101" in
  keyboard_events (on_press key 7 blank) =
    keyboard_events blank ++
      [[("type", PyStr "press"); ("key", PyNone); ("timestamp", PyFloat 7)]] /\
  keyboard_events (on_release key 7 blank) =
    keyboard_events blank ++
      [[("type", PyStr "release"); ("key", PyNone); ("timestamp", PyFloat 7)]] /\
  getattr_char key <> Raise AttributeError /\
  PyNone <> PyStr (key_str key).
Proof.
  intros key. apply (char_none_is_stored_as_none key 7 blank). reflexivity.
Defined.

(** ** The thread and the two methods *)

Lemma set_stop_event_same (w : BackgroundWorker) : set_stop_event (_stop_event w) w = w.
Proof. now destruct w. Qed.

Lemma set_mouse_listener_same (w : BackgroundWorker) :
  set_mouse_listener (mouse_listener w) w = w.
Proof. now destruct w. Qed.

Lemma set_keyboard_listener_same (w : BackgroundWorker) :
  set_keyboard_listener (keyboard_listener w) w = w.
Proof. now destruct w. Qed.

(** The pass of the body touches the two lists only. *)
Lemma cycle_frame (r : response) (w : BackgroundWorker) :
  _stop_event (fst (cycle r w)) = _stop_event w /\
  mouse_listener (fst (cycle r w)) = mouse_listener w /\
  keyboard_listener (fst (cycle r w)) = keyboard_listener w /\
  data_thread (fst (cycle r w)) = data_thread w.
Proof.
  unfold cycle, cycle_with. destruct (request w); [|now repeat split].
  destruct r; cbn; now repeat split.
Qed.

Lemma send_data_step_frame (net : Z -> response) (now : Z) (w : BackgroundWorker) :
  _stop_event (fst (send_data_step net now w)) = _stop_event w /\
  mouse_listener (fst (send_data_step net now w)) = mouse_listener w /\
  keyboard_listener (fst (send_data_step net now w)) = keyboard_listener w.
Proof.
  unfold send_data_step.
  destruct (data_thread w) as [[|until|]|]; try now repeat split.
  - destruct (_stop_event w) eqn:S; cbn; rewrite ?S; now repeat split.
  - destruct (now <? until); [now repeat split|].
    destruct (cycle_frame (net now) w) as (a & b & c & _).
    destruct (cycle (net now) w) as [w' o]. cbn in *. now repeat split.
Qed.

(** When [join] returns, the thread has exited; the flag and the
    listeners are as they were. *)
Lemma join_returns (fuel : nat) (net : Z -> response) :
  forall (now : Z) (w : BackgroundWorker) (t : Z) (w' : BackgroundWorker) (o : list effect),
    join fuel net now w = Some (t, w', o) ->
    data_thread w' = Some Exited /\
    _stop_event w' = _stop_event w /\
    mouse_listener w' = mouse_listener w /\
    keyboard_listener w' = keyboard_listener w.
Proof.
  induction fuel as [|fuel IH]; intros now w t w' o H; [discriminate|].
  cbn [join] in H.
  destruct (data_thread w) as [[|until|]|] eqn:E; [| |injection H as <- <- <-; now repeat split|discriminate].
  - destruct (send_data_step_frame net now w) as (a & b & c).
    destruct (send_data_step net now w) as [w1 o1]. cbn [fst] in *.
    destruct (join fuel net now w1) as [[[t2 w2] o2]|] eqn:J; [|discriminate].
    injection H as <- <- <-.
    destruct (IH _ _ _ _ _ J) as (d & e & f & g).
    repeat split; congruence.
  - destruct (send_data_step_frame net (Z.max now until) w) as (a & b & c).
    destruct (send_data_step net (Z.max now until) w) as [w1 o1]. cbn [fst] in *.
    destruct (join fuel net (Z.max now until) w1) as [[[t2 w2] o2]|] eqn:J; [|discriminate].
    injection H as <- <- <-.
    destruct (IH _ _ _ _ _ J) as (d & e & f & g).
    repeat split; congruence.
Qed.

Lemma stop_unfold (fuel : nat) (net : Z -> response) (now : Z) (w : BackgroundWorker) :
  stop fuel net now w =
    match data_thread w with
    | None => {| res := Raise AttributeError; self := signalled w; out := [] |}
    | Some _ =>
        match join fuel net now (signalled w) with
        | Some (t, w', o) =>
            {| res := Return t; self := w';
               out := o ++ [Printed "Background worker stopped."] |}
        | None => {| res := Diverge; self := signalled w; out := [] |}
        end
    end.
Proof.
  unfold stop, bind, modify, data_thread_join, print, ret. cbn.
  fold (signalled w).
  destruct (data_thread w) as [p|]; [|reflexivity].
  destruct (join fuel net now (signalled w)) as [[[t w'] o]|]; reflexivity.
Qed.

Lemma join_sleeping (fuel : nat) (net : Z -> response) (now until : Z) (w : BackgroundWorker) :
  data_thread w = Some (Sleeping until) ->
  _stop_event w = true ->
  join (S (S (S fuel))) net now w =
    Some (Z.max now until,
          set_data_thread (Some Exited) (fst (cycle (net (Z.max now until)) w)),
          snd (cycle (net (Z.max now until)) w)).
Proof.
  intros E S. cbn [join]. rewrite E. unfold send_data_step. rewrite E.
  assert (L : (Z.max now until <? until) = false) by (apply Z.ltb_ge; lia).
  rewrite L.
  destruct (cycle_frame (net (Z.max now until)) w) as (a & _ & _ & b).
  destruct (cycle (net (Z.max now until)) w) as [w1 o1]. cbn [fst snd] in *.
  cbn. rewrite a, S. cbn. now rewrite !app_nil_r.
Qed.

Lemma join_at_while (fuel : nat) (net : Z -> response) (now : Z) (w : BackgroundWorker) :
  data_thread w = Some AtWhile ->
  _stop_event w = true ->
  join (S (S fuel)) net now w = Some (now, set_data_thread (Some Exited) w, []).
Proof.
  intros E S. cbn [join]. rewrite E. unfold send_data_step. rewrite E, S. reflexivity.
Qed.

Lemma join_exited (fuel : nat) (net : Z -> response) (now : Z) (w : BackgroundWorker) :
  data_thread w = Some Exited ->
  join (S fuel) net now w = Some (now, w, []).
Proof. intros E. cbn [join]. now rewrite E. Qed.

Lemma cycle_posts_signalled (r : response) (w : BackgroundWorker) :
  posts (snd (cycle r (signalled w))) = posts (snd (cycle r w)).
Proof.
  unfold cycle, cycle_with, request, signalled. cbn.
  destruct (truth (mouse_events w) || truth (keyboard_events w)); [|reflexivity].
  destruct r; reflexivity.
Qed.

Lemma signalled_fields (w : BackgroundWorker) :
  data_thread (signalled w) = data_thread w /\ _stop_event (signalled w) = true.
Proof. now split. Qed.

Lemma start_fresh (w : BackgroundWorker) :
  mouse_listener w = Created -> keyboard_listener w = Created ->
  start w =
    {| res := Return tt;
       self := set_data_thread (Some AtWhile)
                 (set_keyboard_listener Listening
                    (set_mouse_listener Listening (set_stop_event false w)));
       out := [Spawned MouseListener; Spawned KeyboardListener; Spawned DataThread;
               Printed "Background worker started."] |}.
Proof.
  intros Hm Hk.
  unfold start, bind, modify, mouse_listener_start, keyboard_listener_start,
    data_thread_start, print.
  cbn. rewrite Hm. cbn. rewrite Hk. reflexivity.
Qed.

(** ** C3: how long [stop()] takes *)

(** C3 as stated fails.  A worker is built and started at instant 0; its
    thread evaluates the condition of the [while] and goes to sleep until
    5; [stop()] is called at 0.  It returns at 5: the delay is the whole
    interval. *)
Lemma stop_right_after_start_takes_the_interval :
  let net := fun _ : Z => Response 200 in
  let w1 := self (start (init (PyStr "s1") (PyInt 1) default_api_url)) in
  let w2 := fst (send_data_step net 0 w1) in
  data_thread w2 = Some (Sleeping 5) /\
  res (stop 3 net 0 w2) = Return 5 /\
  ~ (5 - 0 < 5).
Proof. cbv zeta. repeat split; try reflexivity. lia. Qed.

(** C3, as the code has it.  The suspension is [time.sleep(5)], which
    [stop()] does not interrupt; the flag is read at the top of the loop
    only.  [stop()] called while the thread sleeps returns when the sleep
    is over, after the pass of the body that follows the sleep (counted
    here as taking no time); called when the thread has just gone to sleep
    after [start()], it returns five seconds later.  It returns at once
    only when the thread stands at the condition of the [while] or has
    exited. *)
Theorem stop_waits_for_the_sleep (fuel : nat) (net : Z -> response) (now : Z)
    (w : BackgroundWorker) :
  (3 <= fuel)%nat ->
  (forall until : Z,
      data_thread w = Some (Sleeping until) ->
      res (stop fuel net now w) = Return (Z.max now until) /\
      posts (out (stop fuel net now w)) = posts (snd (cycle (net (Z.max now until)) w))) /\
  (data_thread w = Some AtWhile \/ data_thread w = Some Exited ->
   res (stop fuel net now w) = Return now) /\
  (forall (sid uid : pyval) (url : string),
      res (stop fuel net now
             (fst (send_data_step net now (self (start (init sid uid url))))))
      = Return (now + 5)).
Proof.
  intros F.
  destruct fuel as [|[|[|fuel]]]; try lia.
  destruct (signalled_fields w) as [D Hs].
  split; [|split].
  - intros u E. rewrite stop_unfold, E.
    rewrite (join_sleeping fuel net now u (signalled w)) by congruence.
    cbn [res out]. split; [reflexivity|].
    rewrite posts_app. cbn. rewrite app_nil_r. apply cycle_posts_signalled.
  - intros [E|E]; rewrite stop_unfold, E.
    + rewrite (join_at_while (S fuel) net now (signalled w)) by congruence.
      reflexivity.
    + rewrite (join_exited (S (S fuel)) net now (signalled w)) by congruence.
      reflexivity.
  - intros sid uid url.
    rewrite (start_fresh (init sid uid url)) by reflexivity. cbn [self].
    rewrite stop_unfold. cbn.
    assert (L : (Z.max now (now + 5) <? now + 5) = false) by (apply Z.ltb_ge; lia).
    rewrite L. cbn. f_equal. lia.
Qed.

Lemma stop_waits_for_the_sleep_witness :
  let net := fun _ : Z => Response 200 in
  let w := set_data_thread (Some (Sleeping 5))
             (on_move 10 20 1 (init (PyStr "s1") (PyInt 1) default_api_url)) in
  res (stop 3 net 2 w) = Return (Z.max 2 5) /\
  posts (out (stop 3 net 2 w)) = posts (snd (cycle (net (Z.max 2 5)) w)).
Proof.
  intros net w.
  apply (stop_waits_for_the_sleep 3 net 2 w); [lia | reflexivity].
Defined.

(** ** C4: a second start *)

(** C4.  Through [start_background_worker], the entry point of the
    controller: the first call builds a worker and starts the two
    listeners and the thread of [send_data], one of each; a call made
    while a worker is held prints a notice, starts nothing and changes
    nothing, so after two calls in sequence there is one pair of listeners,
    both listening, and one thread.  [start()] called directly on a worker
    whose mouse listener is listening starts nothing either: the listener,
    a thread, refuses to start twice and the call leaves with
    [RuntimeError] before any thread is created. *)
Theorem second_start_spawns_nothing (a : WindowsApp.t) (w : BackgroundWorker) :
  (WindowsApp.background_worker a = None ->
   let o1 := WindowsApp.start_background_worker a in
   let o2 := WindowsApp.start_background_worker (WindowsApp.app o1) in
   WindowsApp.app_res o1 = Return tt /\
   WindowsApp.app_res o2 = Return tt /\
   WindowsApp.app o2 = WindowsApp.app o1 /\
   spawned (WindowsApp.app_out o1 ++ WindowsApp.app_out o2)
     = [MouseListener; KeyboardListener; DataThread] /\
   exists w',
     WindowsApp.background_worker (WindowsApp.app o2) = Some w' /\
     mouse_listener w' = Listening /\
     keyboard_listener w' = Listening /\
     data_thread w' = Some AtWhile) /\
  (WindowsApp.background_worker a = Some w ->
   WindowsApp.start_background_worker a =
     {| WindowsApp.app_res := Return tt;
        WindowsApp.app := a;
        WindowsApp.app_out := [Printed "Background worker is already running."] |}) /\
  (mouse_listener w = Listening ->
   res (start w) = Raise RuntimeError /\
   spawned (out (start w)) = [] /\
   self (start w) = set_stop_event false w).
Proof.
  split; [|split].
  - intros H. cbv zeta.
    assert (E : WindowsApp.start_background_worker a =
                {| WindowsApp.app_res := Return tt;
                   WindowsApp.app :=
                     WindowsApp.set_background_worker
                       (Some (self (start (init (WindowsApp.session_id a)
                                             (WindowsApp.user_id a) default_api_url)))) a;
                   WindowsApp.app_out :=
                     Printed "Start signal received. Starting background worker..."
                       :: out (start (init (WindowsApp.session_id a)
                                        (WindowsApp.user_id a) default_api_url)) |}).
    { unfold WindowsApp.start_background_worker. rewrite H.
      now rewrite (start_fresh (init (WindowsApp.session_id a) (WindowsApp.user_id a)
                                  default_api_url)) by reflexivity. }
    rewrite E. cbn. repeat split; try reflexivity.
    eexists. repeat split.
  - intros H. unfold WindowsApp.start_background_worker. now rewrite H.
  - intros H.
    unfold start, bind, modify, mouse_listener_start. cbn. rewrite H. cbn.
    repeat split.
Qed.

Lemma second_start_spawns_nothing_witness :
  let o1 := WindowsApp.start_background_worker WindowsApp.init in
  let o2 := WindowsApp.start_background_worker (WindowsApp.app o1) in
  WindowsApp.app_res o1 = Return tt /\
  WindowsApp.app_res o2 = Return tt /\
  WindowsApp.app o2 = WindowsApp.app o1 /\
  spawned (WindowsApp.app_out o1 ++ WindowsApp.app_out o2)
    = [MouseListener; KeyboardListener; DataThread] /\
  exists w',
    WindowsApp.background_worker (WindowsApp.app o2) = Some w' /\
    mouse_listener w' = Listening /\
    keyboard_listener w' = Listening /\
    data_thread w' = Some AtWhile.
Proof.
  apply (second_start_spawns_nothing WindowsApp.init blank). reflexivity.
Defined.

(** ** C5: a second stop *)

(** C5 as stated fails for a worker that is stopped because it was never
    started: [data_thread] is bound by [start()] only, so [stop()] raises
    [AttributeError], after having set the flag. *)
Lemma stop_before_any_start_raises :
  let net := fun _ : Z => Response 200 in
  let w := init (PyStr "s1") (PyInt 1) default_api_url in
  res (stop 3 net 0 w) = Raise AttributeError /\
  _stop_event w = false /\
  _stop_event (self (stop 3 net 0 w)) = true.
Proof. cbv zeta. repeat split; reflexivity. Qed.

(** C5, as the code has it.  After a [stop()] that returned, a second
    [stop()] returns too, at the instant of the call: it raises nothing,
    waits for nothing, leaves the worker as it is and prints its line
    again.  Through the controller, [stop_background_worker] with no worker
    held does nothing, and that is the state in which a
    [stop_background_worker] that returned leaves the controller. *)
Theorem second_stop_changes_nothing (fuel fuel' : nat) (net net' : Z -> response)
    (now now' : Z) (w : BackgroundWorker) (a : WindowsApp.t) :
  (1 <= fuel')%nat ->
  ((exists t, res (stop fuel net now w) = Return t) ->
   stop fuel' net' now' (self (stop fuel net now w)) =
     {| res := Return now';
        self := self (stop fuel net now w);
        out := [Printed "Background worker stopped."] |}) /\
  (WindowsApp.background_worker a = None ->
   WindowsApp.stop_background_worker fuel' net' now' a =
     {| WindowsApp.app_res := Return tt; WindowsApp.app := a;
        WindowsApp.app_out := [] |}) /\
  (WindowsApp.app_res (WindowsApp.stop_background_worker fuel net now a) = Return tt ->
   WindowsApp.background_worker
     (WindowsApp.app (WindowsApp.stop_background_worker fuel net now a)) = None).
Proof.
  intros F. destruct fuel' as [|fuel']; [lia|]. split; [|split].
  - intros [t H]. rewrite (stop_unfold fuel net now w) in H |- *.
    destruct (data_thread w) as [p|] eqn:E; [|discriminate].
    destruct (join fuel net now (signalled w)) as [[[t1 w1] o1]|] eqn:J; [|discriminate].
    cbn [self].
    destruct (join_returns _ _ _ _ _ _ _ J) as (d & e & f & g).
    rewrite stop_unfold, d.
    assert (Q : signalled w1 = w1).
    { unfold signalled.
      replace true with (_stop_event w1) by (rewrite e; reflexivity).
      rewrite set_stop_event_same.
      replace (listener_stop (mouse_listener w1)) with (mouse_listener w1)
        by (rewrite f; cbn; now destruct (mouse_listener w)).
      rewrite set_mouse_listener_same.
      replace (listener_stop (keyboard_listener w1)) with (keyboard_listener w1)
        by (rewrite g; cbn; now destruct (keyboard_listener w)).
      now rewrite set_keyboard_listener_same. }
    rewrite Q, (join_exited fuel' net' now' w1 d). reflexivity.
  - intros H. unfold WindowsApp.stop_background_worker. now rewrite H.
  - unfold WindowsApp.stop_background_worker.
    destruct (WindowsApp.background_worker a) as [w0|] eqn:E.
    + destruct (res (stop fuel net now w0)); cbn [WindowsApp.app_res WindowsApp.app];
        [reflexivity|discriminate|discriminate].
    + intros _. exact E.
Qed.

Lemma second_stop_changes_nothing_witness :
  let net := fun _ : Z => Response 200 in
  let w := self (start (init (PyStr "s1") (PyInt 1) default_api_url)) in
  stop 1 net 9 (self (stop 3 net 7 w)) =
    {| res := Return 9;
       self := self (stop 3 net 7 w);
       out := [Printed "Background worker stopped."] |}.
Proof.
  intros net w.
  apply (second_stop_changes_nothing 3 1 net net 7 9 w WindowsApp.init); [lia|].
  exists 7. reflexivity.
Defined.

(** * Further properties of the buffer and of the loop body *)

Lemma captured_one (i : input) :
  (List.length (captured_mouse [i]) + List.length (captured_keys [i]) = 1)%nat.
Proof.
  unfold captured_mouse, captured_keys, records.
  destruct i; cbn; unfold on_press, on_release, getattr_char;
    try destruct (key_char key); reflexivity.
Qed.

Lemma captured_count (l : list input) :
  (List.length (captured_mouse l) + List.length (captured_keys l) = List.length l)%nat.
Proof.
  induction l as [|i l IH]; [reflexivity|].
  change (i :: l) with ([i] ++ l).
  rewrite captured_mouse_app, captured_keys_app, !length_app.
  pose proof (captured_one i). cbn [List.length app] in *. lia.
Qed.

(** X1.  Whatever callbacks run, in whatever order, each of them appends
    one event to one of the two lists: the lists keep what they held, in
    front, and grow together by the number of callbacks; the flag, the
    listeners, the thread, the identifiers and the address are not
    touched. *)
Theorem callbacks_append_one_event_each (l : list input) (w : BackgroundWorker) :
  mouse_events (records l w) = mouse_events w ++ captured_mouse l /\
  keyboard_events (records l w) = keyboard_events w ++ captured_keys l /\
  (List.length (mouse_events (records l w)) + List.length (keyboard_events (records l w))
   = List.length (mouse_events w) + List.length (keyboard_events w) + List.length l)%nat /\
  session_id (records l w) = session_id w /\
  user_id (records l w) = user_id w /\
  api_url (records l w) = api_url w /\
  _stop_event (records l w) = _stop_event w /\
  mouse_listener (records l w) = mouse_listener w /\
  keyboard_listener (records l w) = keyboard_listener w /\
  data_thread (records l w) = data_thread w.
Proof.
  split; [apply records_mouse|]. split; [apply records_keys|]. split.
  - rewrite records_mouse, records_keys, !length_app.
    pose proof (captured_count l). lia.
  - apply records_fields.
Qed.

Lemma captured_shapes (l : list input) :
  Forall mouse_shape (captured_mouse l) /\ Forall key_shape (captured_keys l).
Proof.
  induction l as [|i l [IHm IHk]]; [split; constructor|].
  change (i :: l) with ([i] ++ l).
  rewrite captured_mouse_app, captured_keys_app.
  split; apply Forall_app; split; try assumption.
  - unfold captured_mouse, records.
    destruct i; cbn; unfold on_press, on_release, getattr_char;
      try destruct (key_char key); cbn;
      repeat apply Forall_cons; try apply Forall_nil.
    + left. now exists x, y, ts.
    + right. left. now exists x, y, button, pressed, ts.
    + right. right. now exists x, y, dx, dy, ts.
  - unfold captured_keys, records.
    destruct i; cbn; unfold on_press, on_release, getattr_char;
      try destruct (key_char key) as [c|]; cbn;
      repeat apply Forall_cons; try apply Forall_nil.
    + exists "press", c, ts. split; [now left|reflexivity].
    + exists "press", (PyStr (key_str key)), ts. split; [now left|reflexivity].
    + exists "release", c, ts. split; [now right|reflexivity].
    + exists "release", (PyStr (key_str key)), ts. split; [now right|reflexivity].
Qed.

(** What a pass leaves in the lists: nothing, or what was there followed
    by what the callbacks appended meanwhile. *)
Lemma cycle_with_lists (r : response) (during : list input) (w : BackgroundWorker) :
  (mouse_events (fst (cycle_with r during w)) = [] /\
   keyboard_events (fst (cycle_with r during w)) = []) \/
  (mouse_events (fst (cycle_with r during w)) = mouse_events w ++ captured_mouse during /\
   keyboard_events (fst (cycle_with r during w)) = keyboard_events w ++ captured_keys during).
Proof.
  unfold cycle_with. destruct (request w) as [b|].
  - destruct r as [s|msg]; cbn.
    + left. now split.
    + right. split; [apply records_mouse | apply records_keys].
  - right. cbn. split; [apply records_mouse | apply records_keys].
Qed.

Lemma run_shapes (ops : list op) (w : BackgroundWorker) :
  Forall mouse_shape (mouse_events w) ->
  Forall key_shape (keyboard_events w) ->
  Forall (fun b => Forall mouse_shape (mouse_data b) /\ Forall key_shape (keyboard_data b))
    (posts (snd (run ops w))) /\
  Forall mouse_shape (mouse_events (fst (run ops w))) /\
  Forall key_shape (keyboard_events (fst (run ops w))).
Proof.
  revert w. induction ops as [|o ops IH]; intros w Hm Hk.
  - cbn. repeat split; try assumption. constructor.
  - destruct o as [i|r during].
    + cbn [run]. apply IH.
      * rewrite record_mouse. apply Forall_app. split; [assumption|].
        apply captured_shapes.
      * rewrite record_keys. apply Forall_app. split; [assumption|].
        apply captured_shapes.
    + cbn [run].
      pose proof (cycle_with_posts r during w) as P.
      pose proof (cycle_with_lists r during w) as L.
      destruct (cycle_with r during w) as [w' o1]. cbn [fst snd] in *.
      assert (Hm' : Forall mouse_shape (mouse_events w')).
      { destruct L as [[-> _]|[-> _]]; [constructor|].
        apply Forall_app. split; [assumption|apply captured_shapes]. }
      assert (Hk' : Forall key_shape (keyboard_events w')).
      { destruct L as [[_ ->]|[_ ->]]; [constructor|].
        apply Forall_app. split; [assumption|apply captured_shapes]. }
      destruct (IH w' Hm' Hk') as (A & B & C).
      destruct (run ops w') as [w'' o2]. cbn [fst snd] in *.
      repeat split; try assumption.
      rewrite posts_app. apply Forall_app. split; [|assumption].
      destruct P as [-> | ->]; constructor; [|constructor].
      rewrite data_to_send_mouse, data_to_send_keys. now split.
Qed.

(** X2.  In every run of a new worker, requests that raise and callbacks
    during a request included, [mouse_data] of a posted body holds only
    events with the fields of a move, a click or a scroll, and
    [keyboard_data] only events with the fields of a press or a release;
    the same holds of what is left in the two lists. *)
Theorem posted_events_have_the_callback_shapes (sid uid : pyval) (url : string)
    (ops : list op) :
  Forall (fun b => Forall mouse_shape (mouse_data b) /\ Forall key_shape (keyboard_data b))
    (posts (snd (run ops (init sid uid url)))) /\
  Forall mouse_shape (mouse_events (fst (run ops (init sid uid url)))) /\
  Forall key_shape (keyboard_events (fst (run ops (init sid uid url)))).
Proof. apply run_shapes; constructor. Qed.

Lemma cycle_with_raised (msg : string) (during : list input) (w : BackgroundWorker) :
  fst (cycle_with (RequestException msg) during w) = records during w.
Proof. unfold cycle_with. now destruct (request w). Qed.

(** X3.  As long as every request raises, nothing leaves the lists: after
    the run they hold what they held before followed by every event
    captured, those captured during a request too, in capture order.  The
    lists grow without bound while the endpoint is down. *)
Theorem nothing_is_dropped_while_requests_raise (ops : list op) (w : BackgroundWorker) :
  forallb raising ops = true ->
  mouse_events (fst (run ops w)) = mouse_events w ++ captured_mouse (inputs ops) /\
  keyboard_events (fst (run ops w)) = keyboard_events w ++ captured_keys (inputs ops).
Proof.
  revert w. induction ops as [|o ops IH]; intros w H.
  - cbn. now rewrite !app_nil_r.
  - cbn [forallb] in H. apply andb_true_iff in H. destruct H as [Ho H].
    destruct o as [i|r during].
    + cbn [run inputs flat_map]. fold (inputs ops).
      destruct (IH (record i w) H) as [IHm IHk].
      rewrite IHm, IHk, record_mouse, record_keys.
      rewrite (captured_mouse_app [i]), (captured_keys_app [i]).
      now rewrite !app_assoc.
    + destruct r as [s|msg]; [discriminate|].
      cbn [run inputs flat_map]. fold (inputs ops).
      pose proof (cycle_with_raised msg during w) as E.
      destruct (cycle_with (RequestException msg) during w) as [w' o1].
      cbn [fst] in E. subst w'.
      destruct (IH (records during w) H) as [IHm IHk].
      destruct (run ops (records during w)) as [w'' o2]. cbn [fst] in *.
      rewrite IHm, IHk, records_mouse, records_keys.
      rewrite captured_mouse_app, captured_keys_app.
      now rewrite !app_assoc.
Qed.

Lemma nothing_is_dropped_while_requests_raise_witness :
  let ops := [Rec (Move 1 1 100); Wake (RequestException "refused") [Move 2 2 101];
              Rec (Press (Key_member "shift") 102); Wake (RequestException "refused") []] in
  let w := init (PyStr "s1") (PyInt 1) default_api_url in
  mouse_events (fst (run ops w)) = mouse_events w ++ captured_mouse (inputs ops) /\
  keyboard_events (fst (run ops w)) = keyboard_events w ++ captured_keys (inputs ops).
Proof.
  intros ops w. apply (nothing_is_dropped_while_requests_raise ops w). reflexivity.
Defined.

(** X4.  A pass that finds an event in the lists and whose request is
    answered posts what the lists held when the request left, and leaves
    both lists empty: the events that callbacks append while the request
    is in flight are in the body of no request, this one or a later one. *)
Theorem events_during_an_answered_request_are_lost (s : Z) (during : list input)
    (w : BackgroundWorker) :
  request w <> None ->
  posts (snd (cycle_with (Response s) during w)) = [data_to_send w] /\
  mouse_data (data_to_send w) = mouse_events w /\
  keyboard_data (data_to_send w) = keyboard_events w /\
  mouse_events (fst (cycle_with (Response s) during w)) = [] /\
  keyboard_events (fst (cycle_with (Response s) during w)) = [] /\
  (forall r during', posts (snd (cycle_with r during'
                                   (fst (cycle_with (Response s) during w)))) = []).
Proof.
  intros H.
  assert (E : cycle_with (Response s) during w =
              (set_keyboard_events [] (set_mouse_events [] (records during w)),
               [Posted (api_url w) (data_to_send w)])).
  { unfold cycle_with. destruct (request w) as [b|] eqn:E; [|congruence].
    apply request_some in E. now subst b. }
  rewrite E. cbn [fst snd posts]. repeat split.
Qed.

Lemma events_during_an_answered_request_are_lost_witness :
  let w := on_move 1 1 100 (init (PyStr "s1") (PyInt 1) default_api_url) in
  let during := [Move 2 2 101; Press (Key_member "shift") 102] in
  posts (snd (cycle_with (Response 200) during w)) = [data_to_send w] /\
  mouse_data (data_to_send w) = mouse_events w /\
  keyboard_data (data_to_send w) = keyboard_events w /\
  mouse_events (fst (cycle_with (Response 200) during w)) = [] /\
  keyboard_events (fst (cycle_with (Response 200) during w)) = [] /\
  (forall r during', posts (snd (cycle_with r during'
                                   (fst (cycle_with (Response 200) during w)))) = []).
Proof.
  intros w during.
  apply (events_during_an_answered_request_are_lost 200 during w). discriminate.
Defined.

Lemma run_segments (ops : list op) :
  forall (w : BackgroundWorker) (hm hk : list event),
    (exists pre, hm = pre ++ mouse_events w) ->
    (exists pre, hk = pre ++ keyboard_events w) ->
    Forall (fun b =>
              (exists pre post,
                  hm ++ captured_mouse (inputs ops) = pre ++ mouse_data b ++ post) /\
              (exists pre post,
                  hk ++ captured_keys (inputs ops) = pre ++ keyboard_data b ++ post))
      (posts (snd (run ops w))).
Proof.
  induction ops as [|o ops IH]; intros w hm hk [pm Hm] [pk Hk].
  - constructor.
  - destruct o as [i|r during].
    + cbn [run inputs flat_map]. fold (inputs ops).
      rewrite (captured_mouse_app [i]), (captured_keys_app [i]), !app_assoc.
      apply IH.
      * exists pm. now rewrite record_mouse, Hm, app_assoc.
      * exists pk. now rewrite record_keys, Hk, app_assoc.
    + cbn [run inputs flat_map]. fold (inputs ops).
      pose proof (cycle_with_posts r during w) as P.
      pose proof (cycle_with_lists r during w) as L.
      destruct (cycle_with r during w) as [w' o1]. cbn [fst snd] in *.
      assert (IH' := IH w' (hm ++ captured_mouse during) (hk ++ captured_keys during)).
      destruct (run ops w') as [w'' o2]. cbn [snd] in *.
      rewrite posts_app. apply Forall_app. split.
      * destruct P as [-> | ->]; constructor; [|constructor].
        rewrite data_to_send_mouse, data_to_send_keys. split.
        -- exists pm, (captured_mouse (during ++ inputs ops)).
           now rewrite Hm, app_assoc.
        -- exists pk, (captured_keys (during ++ inputs ops)).
           now rewrite Hk, app_assoc.
      * rewrite captured_mouse_app, captured_keys_app, !app_assoc.
        apply IH'.
        -- destruct L as [[-> _]|[-> _]].
           ++ exists (hm ++ captured_mouse during). now rewrite app_nil_r.
           ++ exists pm. now rewrite Hm, app_assoc.
        -- destruct L as [[_ ->]|[_ ->]].
           ++ exists (hk ++ captured_keys during). now rewrite app_nil_r.
           ++ exists pk. now rewrite Hk, app_assoc.
Qed.

(** X5.  In every run, requests that raise and callbacks during a request
    included, the events of a posted body are a stretch of the capture:
    [mouse_data] is a run of consecutive pointer events, in capture order
    with none left out in between, and [keyboard_data] likewise for the key
    events. *)
Theorem every_body_is_a_stretch_of_the_capture (ops : list op) (w : BackgroundWorker) :
  Forall (fun b =>
            (exists pre post,
                mouse_events w ++ captured_mouse (inputs ops)
                = pre ++ mouse_data b ++ post) /\
            (exists pre post,
                keyboard_events w ++ captured_keys (inputs ops)
                = pre ++ keyboard_data b ++ post))
    (posts (snd (run ops w))).
Proof. apply run_segments; now exists []. Qed.

(** * Further properties of the thread and of the life cycle *)

Lemma join_blocks (fuel : nat) (net : Z -> response) :
  forall (now : Z) (w : BackgroundWorker) (p : pc),
    _stop_event w = false ->
    data_thread w = Some p -> p <> Exited ->
    join fuel net now w = None.
Proof.
  induction fuel as [|fuel IH]; intros now w p F E N; [reflexivity|].
  cbn [join]. rewrite E.
  destruct p as [|u|]; [| |congruence].
  - unfold send_data_step. rewrite E, F.
    rewrite (IH now (set_data_thread (Some (Sleeping (now + 5))) w) (Sleeping (now + 5)));
      [reflexivity|exact F|reflexivity|discriminate].
  - unfold send_data_step. rewrite E.
    assert (L : (Z.max now u <? u) = false) by (apply Z.ltb_ge; lia).
    rewrite L.
    destruct (cycle_frame (net (Z.max now u)) w) as (a & _).
    destruct (cycle (net (Z.max now u)) w) as [w1 o1]. cbn [fst] in a.
    rewrite (IH (Z.max now u) (set_data_thread (Some AtWhile) w1) AtWhile);
      [reflexivity|cbn; congruence|reflexivity|discriminate].
Qed.

(** X6.  The thread of [send_data] leaves its loop only through the flag:
    as long as [_stop_event] is not set, a thread that has not exited does
    not exit, however many steps it takes, and a [join] on it does not
    return. *)
Theorem thread_exits_only_through_the_flag (fuel : nat) (net : Z -> response) (now : Z)
    (w : BackgroundWorker) (p : pc) :
  _stop_event w = false ->
  data_thread w = Some p -> p <> Exited ->
  join fuel net now w = None /\
  res (data_thread_join fuel net now w) = Diverge /\
  (exists p', data_thread (fst (send_data_step net now w)) = Some p' /\ p' <> Exited).
Proof.
  intros F E N. pose proof (join_blocks fuel net now w p F E N) as J.
  split; [exact J|]. split.
  - unfold data_thread_join. now rewrite E, J.
  - unfold send_data_step. rewrite E. destruct p as [|u|]; [| |congruence].
    + rewrite F. now exists (Sleeping (now + 5)).
    + destruct (now <? u).
      * exists (Sleeping u). now split.
      * destruct (cycle (net now) w) as [w1 o1]. now exists AtWhile.
Qed.

Lemma thread_exits_only_through_the_flag_witness :
  let net := fun _ : Z => Response 200 in
  let w := self (start (init (PyStr "s1") (PyInt 1) default_api_url)) in
  join 50 net 0 w = None /\
  res (data_thread_join 50 net 0 w) = Diverge /\
  (exists p', data_thread (fst (send_data_step net 0 w)) = Some p' /\ p' <> Exited).
Proof.
  intros net w.
  apply (thread_exits_only_through_the_flag 50 net 0 w AtWhile);
    [reflexivity | reflexivity | discriminate].
Defined.

(** What [stop] gives on a worker whose [data_thread] is bound. *)
Lemma stop_started (fuel : nat) (net : Z -> response) (now : Z) (w : BackgroundWorker)
    (p : pc) :
  data_thread w = Some p ->
  exists t w' o,
    stop (S (S (S fuel))) net now w =
      {| res := Return t; self := w';
         out := o ++ [Printed "Background worker stopped."] |} /\
    now <= t /\
    data_thread w' = Some Exited /\
    _stop_event w' = true /\
    mouse_listener w' = listener_stop (mouse_listener w) /\
    keyboard_listener w' = listener_stop (keyboard_listener w) /\
    session_id w' = session_id w /\ user_id w' = user_id w /\ api_url w' = api_url w /\
    (((forall u, p <> Sleeping u) /\ t = now /\ o = [] /\
      mouse_events w' = mouse_events w /\ keyboard_events w' = keyboard_events w) \/
     (exists u, p = Sleeping u /\ t = Z.max now u /\
                o = snd (cycle (net (Z.max now u)) (signalled w)))).
Proof.
  intros E. rewrite stop_unfold, E.
  destruct (signalled_fields w) as [D Hs]. rewrite E in D.
  destruct p as [|u|].
  - rewrite (join_at_while (S fuel) net now (signalled w) D Hs).
    exists now, (set_data_thread (Some Exited) (signalled w)), [].
    repeat split; try reflexivity; try lia.
    left. repeat split. discriminate.
  - rewrite (join_sleeping fuel net now u (signalled w) D Hs).
    destruct (cycle_frame (net (Z.max now u)) (signalled w)) as (a & b & c & _).
    destruct (cycle_with_fields (net (Z.max now u)) [] (signalled w)) as (d & e).
    assert (f : api_url (fst (cycle (net (Z.max now u)) (signalled w))) = api_url w).
    { unfold cycle, cycle_with. destruct (request (signalled w)); [|reflexivity].
      now destruct (net (Z.max now u)). }
    fold (cycle (net (Z.max now u)) (signalled w)) in d, e.
    exists (Z.max now u),
      (set_data_thread (Some Exited) (fst (cycle (net (Z.max now u)) (signalled w)))),
      (snd (cycle (net (Z.max now u)) (signalled w))).
    repeat split; try assumption; try lia.
    right. exists u. repeat split.
  - rewrite (join_exited (S (S fuel)) net now (signalled w) D).
    exists now, (signalled w), [].
    repeat split; try reflexivity; try assumption; try lia.
    left. repeat split. discriminate.
Qed.

Lemma cycle_effects (r : response) (w : BackgroundWorker) :
  spawned (snd (cycle r w)) = [] /\
  Forall (eq (api_url w)) (post_urls (snd (cycle r w))) /\
  Forall (well_formed (session_id w) (user_id w)) (posts (snd (cycle r w))).
Proof.
  unfold cycle, cycle_with. destruct (request w) as [b|] eqn:E.
  - apply request_some in E. subst b.
    destruct r; cbn; repeat split; repeat constructor;
      now exists (mouse_events w), (keyboard_events w).
  - cbn. repeat split; constructor.
Qed.

Lemma send_data_step_ids (net : Z -> response) (now : Z) (w : BackgroundWorker) :
  session_id (fst (send_data_step net now w)) = session_id w /\
  user_id (fst (send_data_step net now w)) = user_id w /\
  api_url (fst (send_data_step net now w)) = api_url w.
Proof.
  unfold send_data_step.
  destruct (data_thread w) as [[|u|]|]; try now repeat split.
  - destruct (_stop_event w); now repeat split.
  - destruct (now <? u); [now repeat split|].
    destruct (cycle_with_fields (net now) [] w) as (d & e).
    fold (cycle (net now) w) in d, e.
    assert (f : api_url (fst (cycle (net now) w)) = api_url w).
    { unfold cycle, cycle_with. destruct (request w); [|reflexivity].
      now destruct (net now). }
    destruct (cycle (net now) w) as [w1 o1]. cbn [fst] in *. now repeat split.
Qed.

(** [join] does not return before it is called, and the thread changes
    neither the identifiers nor the address. *)
Lemma join_keeps (fuel : nat) (net : Z -> response) :
  forall (now : Z) (w : BackgroundWorker) (t : Z) (w' : BackgroundWorker) (o : list effect),
    join fuel net now w = Some (t, w', o) ->
    now <= t /\
    session_id w' = session_id w /\ user_id w' = user_id w /\ api_url w' = api_url w.
Proof.
  induction fuel as [|fuel IH]; intros now w t w' o H; [discriminate|].
  cbn [join] in H.
  destruct (data_thread w) as [[|u|]|] eqn:E;
    [| |injection H as <- <- <-; repeat split; lia|discriminate].
  - destruct (send_data_step_ids net now w) as (a & b & c).
    destruct (send_data_step net now w) as [w1 o1]. cbn [fst] in *.
    destruct (join fuel net now w1) as [[[t2 w2] o2]|] eqn:J; [|discriminate].
    injection H as <- <- <-.
    destruct (IH _ _ _ _ _ J) as (d & e & f & g).
    repeat split; congruence.
  - destruct (send_data_step_ids net (Z.max now u) w) as (a & b & c).
    destruct (send_data_step net (Z.max now u) w) as [w1 o1]. cbn [fst] in *.
    destruct (join fuel net (Z.max now u) w1) as [[[t2 w2] o2]|] eqn:J; [|discriminate].
    injection H as <- <- <-.
    destruct (IH _ _ _ _ _ J) as (d & e & f & g).
    repeat split; try congruence. lia.
Qed.

(** X7.  [stop()] raises exactly when the worker was never started, with
    [AttributeError], the flag already set; on a worker that was started
    it raises nothing.  Whenever it returns, it does so not before the
    call and leaves the thread exited, the flag set, the two listeners not
    listening and the identifiers as they were.  It does return when its
    last pass makes no request: the thread at the condition of the [while]
    or exited, or asleep over two empty lists.  (When the last pass posts,
    [stop()] returns once that request has come back; the code sets no
    limit to that.) *)
Theorem stop_raises_only_on_a_worker_never_started (fuel : nat) (net : Z -> response)
    (now : Z) (w : BackgroundWorker) :
  (data_thread w = None ->
   res (stop fuel net now w) = Raise AttributeError /\
   _stop_event (self (stop fuel net now w)) = true /\
   out (stop fuel net now w) = []) /\
  (data_thread w <> None -> forall e, res (stop fuel net now w) <> Raise e) /\
  (forall t,
      res (stop fuel net now w) = Return t ->
      now <= t /\
      data_thread (self (stop fuel net now w)) = Some Exited /\
      _stop_event (self (stop fuel net now w)) = true /\
      mouse_listener (self (stop fuel net now w)) <> Listening /\
      keyboard_listener (self (stop fuel net now w)) <> Listening /\
      session_id (self (stop fuel net now w)) = session_id w /\
      user_id (self (stop fuel net now w)) = user_id w /\
      api_url (self (stop fuel net now w)) = api_url w) /\
  ((3 <= fuel)%nat ->
   data_thread w <> None ->
   (forall u, data_thread w = Some (Sleeping u) -> request w = None) ->
   (exists t, res (stop fuel net now w) = Return t) /\
   posts (out (stop fuel net now w)) = []).
Proof.
  split; [|split; [|split]].
  - intros E. rewrite stop_unfold, E. now repeat split.
  - intros E e. rewrite stop_unfold.
    destruct (data_thread w) as [p|]; [|congruence].
    destruct (join fuel net now (signalled w)) as [[[t w'] o]|]; discriminate.
  - intros t. rewrite stop_unfold.
    destruct (data_thread w) as [p|]; [|discriminate].
    destruct (join fuel net now (signalled w)) as [[[t1 w1] o1]|] eqn:J; [|discriminate].
    cbn [res self]. intros H. injection H as ->.
    destruct (join_returns _ _ _ _ _ _ _ J) as (a & b & c & d).
    destruct (join_keeps _ _ _ _ _ _ _ J) as (T & e & f & g).
    repeat split; try assumption.
    + rewrite c. cbn. destruct (mouse_listener w); discriminate.
    + rewrite d. cbn. destruct (keyboard_listener w); discriminate.
  - intros F E Q. destruct fuel as [|[|[|fuel]]]; try lia.
    destruct (data_thread w) as [p|] eqn:D; [|congruence].
    destruct (stop_started fuel net now w p D)
      as (t & w' & o & -> & _ & _ & _ & _ & _ & _ & _ & _ & O).
    cbn [res out]. split; [now exists t|].
    rewrite posts_app. cbn. rewrite app_nil_r.
    destruct O as [(_ & _ & -> & _)|(u & -> & _ & ->)]; [reflexivity|].
    rewrite cycle_posts_signalled.
    pose proof (Q u eq_refl) as N. apply request_none in N. destruct N as [N1 N2].
    now rewrite (cycle_idle _ w N1 N2).
Qed.

Lemma stop_raises_only_on_a_worker_never_started_witness :
  let net := fun _ : Z => Response 200 in
  let w := init (PyStr "s1") (PyInt 1) default_api_url in
  let w1 := fst (send_data_step net 0 (self (start w))) in
  (res (stop 3 net 0 w) = Raise AttributeError /\
   _stop_event (self (stop 3 net 0 w)) = true /\
   out (stop 3 net 0 w) = []) /\
  (forall e, res (stop 3 net 2 w1) <> Raise e) /\
  (2 <= 5 /\
   data_thread (self (stop 3 net 2 w1)) = Some Exited /\
   _stop_event (self (stop 3 net 2 w1)) = true /\
   mouse_listener (self (stop 3 net 2 w1)) <> Listening /\
   keyboard_listener (self (stop 3 net 2 w1)) <> Listening /\
   session_id (self (stop 3 net 2 w1)) = session_id w1 /\
   user_id (self (stop 3 net 2 w1)) = user_id w1 /\
   api_url (self (stop 3 net 2 w1)) = api_url w1) /\
  ((exists t, res (stop 3 net 2 w1) = Return t) /\
   posts (out (stop 3 net 2 w1)) = []).
Proof.
  intros net w w1. split; [|split; [|split]].
  - apply (stop_raises_only_on_a_worker_never_started 3 net 0 w). reflexivity.
  - apply (stop_raises_only_on_a_worker_never_started 3 net 2 w1). discriminate.
  - apply (proj1 (proj2 (proj2
             (stop_raises_only_on_a_worker_never_started 3 net 2 w1))) 5).
    reflexivity.
  - apply (stop_raises_only_on_a_worker_never_started 3 net 2 w1);
      [lia | discriminate | reflexivity].
Defined.

(** X8.  [stop()] does not flush.  Called when the thread stands at the
    condition of the [while] (or has exited), it makes no request and
    leaves in the lists the events that were waiting; the thread has then
    exited, its steps do nothing any more, so these events are not posted
    by this worker. *)
Theorem stop_leaves_waiting_events_unsent (fuel : nat) (net net' : Z -> response)
    (now now' : Z) (w : BackgroundWorker) :
  (3 <= fuel)%nat ->
  data_thread w = Some AtWhile \/ data_thread w = Some Exited ->
  posts (out (stop fuel net now w)) = [] /\
  mouse_events (self (stop fuel net now w)) = mouse_events w /\
  keyboard_events (self (stop fuel net now w)) = keyboard_events w /\
  send_data_step net' now' (self (stop fuel net now w)) = (self (stop fuel net now w), []).
Proof.
  intros F H. destruct fuel as [|[|[|fuel]]]; try lia.
  assert (exists p, data_thread w = Some p /\ forall u, p <> Sleeping u) as (p & D & N).
  { destruct H as [H|H]; eexists; (split; [exact H|discriminate]). }
  destruct (stop_started fuel net now w p D)
    as (t & w' & o & -> & T & a & _ & _ & _ & _ & _ & _ & [(_ & _ & -> & m & k)|(u & -> & _)]).
  - cbn [out self app posts]. repeat split; try assumption.
    unfold send_data_step. now rewrite a.
  - now destruct (N u).
Qed.

Lemma stop_leaves_waiting_events_unsent_witness :
  let net := fun _ : Z => Response 200 in
  let w := on_move 10 20 1 (self (start (init (PyStr "s1") (PyInt 1) default_api_url))) in
  posts (out (stop 3 net 2 w)) = [] /\
  mouse_events (self (stop 3 net 2 w)) = mouse_events w /\
  keyboard_events (self (stop 3 net 2 w)) = keyboard_events w /\
  send_data_step net 9 (self (stop 3 net 2 w)) = (self (stop 3 net 2 w), []).
Proof.
  intros net w.
  apply (stop_leaves_waiting_events_unsent 3 net net 2 9 w); [lia|].
  left. reflexivity.
Defined.

(** X9.  A worker cannot be started again.  After a [stop()] on a started
    worker, [start()] raises [RuntimeError] at the mouse listener, starts
    no thread and leaves the thread of [send_data] exited and both
    listeners detached; it has cleared the flag all the same. *)
Theorem start_after_stop_raises (fuel : nat) (net : Z -> response) (now : Z)
    (w : BackgroundWorker) :
  (3 <= fuel)%nat ->
  mouse_listener w = Listening -> keyboard_listener w = Listening ->
  data_thread w <> None ->
  let w' := self (stop fuel net now w) in
  res (start w') = Raise RuntimeError /\
  spawned (out (start w')) = [] /\
  self (start w') = set_stop_event false w' /\
  _stop_event w' = true /\
  mouse_listener w' = Detached /\
  keyboard_listener w' = Detached /\
  data_thread (self (start w')) = Some Exited.
Proof.
  intros F Hm Hk E w'. destruct fuel as [|[|[|fuel]]]; try lia.
  destruct (data_thread w) as [p|] eqn:D; [|congruence].
  destruct (stop_started fuel net now w p D)
    as (t & w1 & o & S & T & a & b & c & d & _).
  subst w'. rewrite S. cbn [self].
  rewrite Hm in c. rewrite Hk in d. cbn in c, d.
  unfold start, bind, modify, mouse_listener_start. cbn. rewrite c. cbn.
  repeat split; assumption.
Qed.

Lemma start_after_stop_raises_witness :
  let net := fun _ : Z => Response 200 in
  let w := self (start (init (PyStr "s1") (PyInt 1) default_api_url)) in
  let w' := self (stop 3 net 0 w) in
  res (start w') = Raise RuntimeError /\
  spawned (out (start w')) = [] /\
  self (start w') = set_stop_event false w' /\
  _stop_event w' = true /\
  mouse_listener w' = Detached /\
  keyboard_listener w' = Detached /\
  data_thread (self (start w')) = Some Exited.
Proof.
  intros net w.
  apply (start_after_stop_raises 3 net 0 w); [lia|reflexivity|reflexivity|discriminate].
Defined.

(** ** Any sequence of calls on one worker *)

Lemma spawned_app (o1 o2 : list effect) : spawned (o1 ++ o2) = spawned o1 ++ spawned o2.
Proof.
  induction o1 as [|e o1 IH]; cbn; [reflexivity|].
  destruct e; cbn; now rewrite IH.
Qed.

Lemma post_urls_app (o1 o2 : list effect) :
  post_urls (o1 ++ o2) = post_urls o1 ++ post_urls o2.
Proof.
  induction o1 as [|e o1 IH]; cbn; [reflexivity|].
  destruct e; cbn; now rewrite IH.
Qed.

Lemma start_refused (w : BackgroundWorker) :
  mouse_listener w <> Created ->
  start w = {| res := Raise RuntimeError; self := set_stop_event false w; out := [] |}.
Proof.
  intros H. unfold start, bind, modify, mouse_listener_start. cbn.
  destruct (mouse_listener w); [congruence|reflexivity|reflexivity].
Qed.

Ltac life w H :=
  unfold consistent in H;
  destruct (mouse_listener w) eqn:Em, (keyboard_listener w) eqn:Ek,
    (data_thread w) as [[|?u|]|] eqn:Ed;
  try contradiction.

Ltac fin :=
  repeat split;
  try solve [constructor | assumption | discriminate | tauto | congruence].

Lemma apply_call_keeps (c : call) (w : BackgroundWorker) :
  consistent w ->
  consistent (fst (apply_call c w)) /\
  session_id (fst (apply_call c w)) = session_id w /\
  user_id (fst (apply_call c w)) = user_id w /\
  api_url (fst (apply_call c w)) = api_url w /\
  spawned (snd (apply_call c w)) =
    (if built w && negb (built (fst (apply_call c w)))
     then [MouseListener; KeyboardListener; DataThread] else []) /\
  (built w = false -> built (fst (apply_call c w)) = false) /\
  Forall (eq (api_url w)) (post_urls (snd (apply_call c w))) /\
  Forall (well_formed (session_id w) (user_id w)) (posts (snd (apply_call c w))).
Proof.
  intros H. destruct c as [|net now|i|net now]; cbn [apply_call fst snd].
  - (* start *)
    destruct (mouse_listener w) eqn:Em.
    + assert (Ek : keyboard_listener w = Created)
        by (unfold consistent in H; rewrite Em in H;
            destruct (keyboard_listener w); [reflexivity|contradiction|contradiction]).
      rewrite (start_fresh w Em Ek). unfold consistent, built. cbn. rewrite Em.
      repeat split; try constructor; discriminate.
    + rewrite (start_refused w) by congruence. cbn [self out].
      unfold consistent, built in *. cbn. rewrite Em in *.
      destruct (keyboard_listener w), (data_thread w); try contradiction.
      repeat split; try constructor; tauto.
    + rewrite (start_refused w) by congruence. cbn [self out].
      unfold consistent, built in *. cbn. rewrite Em in *.
      repeat split; try constructor; assumption.
  - (* stop *)
    destruct (data_thread w) as [p|] eqn:Ed.
    + destruct (stop_started 0 net now w p Ed)
        as (t & w' & o & -> & T & a & b & c & d & e & f & g & O).
      cbn [self out]. unfold consistent, built in *. rewrite a, c, d, e, f, g.
      assert (So : spawned o = [] /\ Forall (eq (api_url w)) (post_urls o) /\
                   Forall (well_formed (session_id w) (user_id w)) (posts o)).
      { destruct O as [(_ & _ & -> & _)|(u & _ & _ & ->)].
        - repeat split; constructor.
        - apply (cycle_effects (net (Z.max now u)) (signalled w)). }
      destruct So as (S1 & S2 & S3).
      rewrite spawned_app, post_urls_app, posts_app, S1. cbn. rewrite !app_nil_r.
      rewrite Ed in H.
      destruct (mouse_listener w), (keyboard_listener w); try contradiction; cbn;
        repeat split; try assumption; try reflexivity.
    + rewrite stop_unfold, Ed. cbn [self out].
      unfold consistent, built in *. cbn. rewrite Ed in *.
      destruct (mouse_listener w), (keyboard_listener w); try contradiction; cbn;
        repeat split; try constructor; tauto.
  - (* a callback *)
    destruct (record_fields i w) as (a & b & c & d & e & f & g).
    unfold consistent, built. rewrite a, b, c, d, e, f, g.
    fold (built w). fold (consistent w).
    destruct (built w); cbn; repeat split; try constructor; auto.
  - (* a step of the thread *)
    unfold send_data_step. life w H.
    + unfold consistent, built. cbn. rewrite Em, Ek, Ed. fin.
    + destruct H as [_ F]. rewrite F. unfold consistent, built. cbn.
      rewrite Em, Ek. fin.
    + destruct (now <? u).
      * unfold consistent, built. cbn. rewrite Em, Ek, Ed. fin.
      * destruct (cycle_frame (net now) w) as (a & b & c & _).
        destruct (cycle_with_fields (net now) [] w) as (d & e).
        fold (cycle (net now) w) in d, e.
        assert (f : api_url (fst (cycle (net now) w)) = api_url w).
        { unfold cycle, cycle_with. destruct (request w); [|reflexivity].
          now destruct (net now). }
        destruct (cycle_effects (net now) w) as (S1 & S2 & S3).
        destruct (cycle (net now) w) as [w1 o1]. cbn [fst snd] in *.
        unfold consistent, built. cbn. rewrite a, b, c, Em, Ek. cbn. fin.
    + now destruct H.
    + unfold consistent, built. cbn. rewrite Em, Ek, Ed. fin.
Qed.

Lemma apply_calls_keeps (cs : list call) :
  forall w : BackgroundWorker,
    consistent w ->
    consistent (fst (apply_calls cs w)) /\
    session_id (fst (apply_calls cs w)) = session_id w /\
    user_id (fst (apply_calls cs w)) = user_id w /\
    api_url (fst (apply_calls cs w)) = api_url w /\
    spawned (snd (apply_calls cs w)) =
      (if built w && negb (built (fst (apply_calls cs w)))
       then [MouseListener; KeyboardListener; DataThread] else []) /\
    (built w = false -> built (fst (apply_calls cs w)) = false) /\
    Forall (eq (api_url w)) (post_urls (snd (apply_calls cs w))) /\
    Forall (well_formed (session_id w) (user_id w)) (posts (snd (apply_calls cs w))).
Proof.
  induction cs as [|c cs IH]; intros w H.
  - cbn. destruct (built w); fin.
  - cbn [apply_calls].
    destruct (apply_call_keeps c w H) as (a & b & c' & d & e & f & g & h).
    destruct (apply_call c w) as [w1 o1]. cbn [fst snd] in *.
    destruct (IH w1 a) as (a2 & b2 & c2 & d2 & e2 & f2 & g2 & h2).
    destruct (apply_calls cs w1) as [w2 o2]. cbn [fst snd] in *.
    rewrite spawned_app, post_urls_app, posts_app, e, e2.
    rewrite b, c', d in *.
    split; [assumption|]. split; [congruence|]. split; [congruence|].
    split; [congruence|]. split; [|split; [|split]].
    + destruct (built w), (built w1), (built w2); cbn; try reflexivity;
        try (specialize (f eq_refl); discriminate);
        try (specialize (f2 eq_refl); discriminate).
    + intros B. apply f2, f, B.
    + apply Forall_app. now split.
    + apply Forall_app. now split.
Qed.

(** X10.  Whatever is called on a worker after it is built, in whatever
    order (start, stop, callbacks, steps of its thread), it is in one of
    three states: built (both listeners new, no thread), started (both
    listeners listening, the thread alive, the flag not set), stopped (both
    listeners detached, the thread exited).  The three threads are started
    at most once, together; the identifiers and the address do not change;
    every request goes to the address of the worker, with a body of the
    four fields. *)
Theorem worker_life_cycle (sid uid : pyval) (url : string) (cs : list call) :
  let w := fst (apply_calls cs (init sid uid url)) in
  let log := snd (apply_calls cs (init sid uid url)) in
  consistent w /\
  session_id w = sid /\ user_id w = uid /\ api_url w = url /\
  spawned log = (if built w then [] else [MouseListener; KeyboardListener; DataThread]) /\
  Forall (eq url) (post_urls log) /\
  Forall (well_formed sid uid) (posts log).
Proof.
  cbv zeta.
  destruct (apply_calls_keeps cs (init sid uid url) I) as (a & b & c & d & e & _ & g & h).
  cbn [init session_id user_id api_url] in *.
  repeat split; try assumption.
  rewrite e. change (built (init sid uid url)) with true.
  now destruct (built (fst (apply_calls cs (init sid uid url)))).
Qed.

(** ** Any sequence of calls on the controller *)

Lemma app_stop_held (net : Z -> response) (now : Z) (a : WindowsApp.t) (w : BackgroundWorker)
    (fuel : nat) :
  WindowsApp.background_worker a = Some w ->
  consistent w -> mouse_listener w = Listening ->
  WindowsApp.app_res (WindowsApp.stop_background_worker (S (S (S fuel))) net now a)
    = Return tt /\
  WindowsApp.app (WindowsApp.stop_background_worker (S (S (S fuel))) net now a)
    = WindowsApp.set_background_worker None a /\
  WindowsApp.app_out (WindowsApp.stop_background_worker (S (S (S fuel))) net now a)
    = out (stop (S (S (S fuel))) net now w) /\
  spawned (out (stop (S (S (S fuel))) net now w)) = [] /\
  Forall (eq (api_url w)) (post_urls (out (stop (S (S (S fuel))) net now w))) /\
  Forall (well_formed (session_id w) (user_id w))
    (posts (out (stop (S (S (S fuel))) net now w))).
Proof.
  intros E H L. unfold WindowsApp.stop_background_worker. rewrite E.
  assert (exists p, data_thread w = Some p) as [p D].
  { unfold consistent in H. rewrite L in H.
    destruct (keyboard_listener w), (data_thread w) as [p|]; try contradiction.
    now exists p. }
  destruct (stop_started fuel net now w p D)
    as (t & w' & o & -> & _ & _ & _ & _ & _ & _ & _ & _ & O).
  cbn [res self out WindowsApp.app_res WindowsApp.app WindowsApp.app_out].
  repeat split; rewrite ?spawned_app, ?post_urls_app, ?posts_app; cbn;
    rewrite ?app_nil_r;
    (destruct O as [(_ & _ & -> & _)|(u & _ & _ & ->)];
     [constructor | apply (cycle_effects (net (Z.max now u)) (signalled w))]).
Qed.

Lemma apply_app_call_keeps (c : app_call) (a : WindowsApp.t) :
  app_consistent a ->
  app_consistent (fst (apply_app_call c a)) /\
  WindowsApp.session_id (fst (apply_app_call c a)) = WindowsApp.session_id a /\
  WindowsApp.user_id (fst (apply_app_call c a)) = WindowsApp.user_id a /\
  Forall (eq default_api_url) (post_urls (snd (apply_app_call c a))) /\
  Forall (well_formed (WindowsApp.session_id a) (WindowsApp.user_id a))
    (posts (snd (apply_app_call c a))).
Proof.
  intros H. unfold app_consistent in H.
  destruct c as [|net now|i|net now]; cbn [apply_app_call].
  - unfold WindowsApp.start_background_worker.
    destruct (WindowsApp.background_worker a) as [w|] eqn:E; cbn [fst snd].
    + cbn. unfold app_consistent. rewrite E. fin.
    + rewrite (start_fresh (init (WindowsApp.session_id a) (WindowsApp.user_id a)
                              default_api_url)) by reflexivity.
      cbn. unfold app_consistent, consistent. cbn. fin.
  - destruct (WindowsApp.background_worker a) as [w|] eqn:E.
    + destruct H as (C & L & s & u & l).
      destruct (app_stop_held net now a w 0 E C L) as (_ & -> & -> & _ & P & Q).
      cbn [fst snd]. rewrite s, u, l in *.
      unfold app_consistent. cbn. fin.
    + unfold WindowsApp.stop_background_worker. rewrite E. cbn.
      unfold app_consistent. rewrite E. fin.
  - destruct (WindowsApp.background_worker a) as [w|] eqn:E; cbn [fst snd].
    + destruct H as (C & L & s & u & l).
      destruct (apply_call_keeps (Callback i) w C) as (C' & s' & u' & l' & _).
      destruct (record_fields i w) as (_ & _ & _ & _ & e & _).
      cbn [apply_call fst] in *.
      unfold app_consistent. cbn. fin.
    + unfold app_consistent. rewrite E. fin.
  - destruct (WindowsApp.background_worker a) as [w|] eqn:E; cbn [fst snd].
    + destruct H as (C & L & s & u & l).
      destruct (apply_call_keeps (ThreadStep net now) w C)
        as (C' & s' & u' & l' & _ & _ & P & Q).
      destruct (send_data_step_frame net now w) as (_ & e & _).
      cbn [apply_call] in *. rewrite s, u, l in *.
      unfold app_consistent. cbn. fin.
    + unfold app_consistent. rewrite E. fin.
Qed.

Lemma apply_app_calls_keeps (cs : list app_call) :
  forall a : WindowsApp.t,
    app_consistent a ->
    app_consistent (fst (apply_app_calls cs a)) /\
    WindowsApp.session_id (fst (apply_app_calls cs a)) = WindowsApp.session_id a /\
    WindowsApp.user_id (fst (apply_app_calls cs a)) = WindowsApp.user_id a /\
    Forall (eq default_api_url) (post_urls (snd (apply_app_calls cs a))) /\
    Forall (well_formed (WindowsApp.session_id a) (WindowsApp.user_id a))
      (posts (snd (apply_app_calls cs a))).
Proof.
  induction cs as [|c cs IH]; intros a H.
  - cbn. fin.
  - cbn [apply_app_calls].
    destruct (apply_app_call_keeps c a H) as (C & s & u & P & Q).
    destruct (apply_app_call c a) as [a1 o1]. cbn [fst snd] in *.
    destruct (IH a1 C) as (C2 & s2 & u2 & P2 & Q2).
    destruct (apply_app_calls cs a1) as [a2 o2]. cbn [fst snd] in *.
    rewrite post_urls_app, posts_app. rewrite s, u in *.
    repeat split; try assumption; try congruence; apply Forall_app; now split.
Qed.

(** X11.  Whatever the controller has been through since it was built
    (start signals, stops, the worker's callbacks and thread steps), the
    worker it holds, if any, is a started one; so [logout] raises nothing:
    the [AttributeError] of a stop on a worker never started cannot occur.
    Whenever the stop returns, [quit] is reached and no worker is held
    afterwards; and it does return when its last pass makes no request
    (no worker held, or its thread not asleep, or asleep over two empty
    lists). *)
Theorem logout_never_raises (cs : list app_call) (fuel : nat) (net : Z -> response)
    (now : Z) :
  let a := fst (apply_app_calls cs WindowsApp.init) in
  app_consistent a /\
  (forall e, WindowsApp.app_res (after (logout fuel net now a)) <> Raise e) /\
  (WindowsApp.app_res (after (logout fuel net now a)) = Return tt ->
   quit (logout fuel net now a) = true /\
   WindowsApp.background_worker (WindowsApp.app (after (logout fuel net now a))) = None) /\
  ((3 <= fuel)%nat ->
   (forall w u, WindowsApp.background_worker a = Some w ->
                data_thread w = Some (Sleeping u) -> request w = None) ->
   WindowsApp.app_res (after (logout fuel net now a)) = Return tt /\
   quit (logout fuel net now a) = true /\
   posts (WindowsApp.app_out (after (logout fuel net now a))) = []).
Proof.
  intros a.
  destruct (apply_app_calls_keeps cs WindowsApp.init I) as (C & _).
  fold a in C. split; [exact C|].
  unfold logout. cbn [quit after WindowsApp.app_res WindowsApp.app WindowsApp.app_out].
  unfold app_consistent in C. unfold WindowsApp.stop_background_worker.
  destruct (WindowsApp.background_worker a) as [w|] eqn:E.
  - destruct C as (C & L & _).
    assert (exists p, data_thread w = Some p) as [p D].
    { unfold consistent in C. rewrite L in C.
      destruct (keyboard_listener w), (data_thread w) as [p|]; try contradiction.
      now exists p. }
    split; [|split].
    + intros e. rewrite stop_unfold, D.
      destruct (join fuel net now (signalled w)) as [[[t w'] o]|]; discriminate.
    + destruct (res (stop fuel net now w));
        cbn [WindowsApp.app_res WindowsApp.app WindowsApp.background_worker
             WindowsApp.set_background_worker];
        [now split | discriminate | discriminate].
    + intros F Q. destruct fuel as [|[|[|fuel]]]; try lia.
      destruct (stop_started fuel net now w p D)
        as (t & w' & o & -> & _ & _ & _ & _ & _ & _ & _ & _ & O).
      cbn [res out WindowsApp.app_res WindowsApp.app_out posts].
      repeat split.
      rewrite posts_app. cbn. rewrite app_nil_r.
      destruct O as [(_ & _ & -> & _)|(u & -> & _ & ->)]; [reflexivity|].
      rewrite cycle_posts_signalled.
      pose proof (Q w u eq_refl D) as N. apply request_none in N.
      destruct N as [N1 N2]. now rewrite (cycle_idle _ w N1 N2).
  - cbn. repeat split; try assumption; discriminate.
Qed.

Lemma logout_never_raises_witness :
  let net := fun _ : Z => Response 200 in
  let a := fst (apply_app_calls
                  [AppStart; AppThreadStep net 0; AppStart]
                  WindowsApp.init) in
  (quit (logout 3 net 2 a) = true /\
   WindowsApp.background_worker (WindowsApp.app (after (logout 3 net 2 a))) = None) /\
  (WindowsApp.app_res (after (logout 3 net 2 a)) = Return tt /\
   quit (logout 3 net 2 a) = true /\
   posts (WindowsApp.app_out (after (logout 3 net 2 a))) = []).
Proof.
  intros net. split.
  - apply (logout_never_raises [AppStart; AppThreadStep net 0; AppStart] 3 net 2).
    reflexivity.
  - apply (logout_never_raises [AppStart; AppThreadStep net 0; AppStart] 3 net 2).
    + lia.
    + intros w u H D. injection H as <-. reflexivity.
Defined.

(** X12.  Every request made while the controller runs goes to the default
    address and carries the identifiers set in [WindowsApp.__init__], the
    session "windows_session" and the user 1: nothing in the controller
    ever gives the worker other ones. *)
Theorem app_requests_carry_the_fixed_session (cs : list app_call) :
  Forall (eq default_api_url) (post_urls (snd (apply_app_calls cs WindowsApp.init))) /\
  Forall (well_formed (PyStr "windows_session") (PyInt 1))
    (posts (snd (apply_app_calls cs WindowsApp.init))).
Proof.
  destruct (apply_app_calls_keeps cs WindowsApp.init I) as (_ & _ & _ & P & Q).
  now split.
Qed.

(** X13.  A start after a stop builds a new worker: whatever happened
    before, the worker held after a stop followed by a start is a newly
    built and started one, with three new threads and two empty lists;
    what the former worker still held is gone with it. *)
Theorem start_after_app_stop_is_fresh (cs : list app_call) (net : Z -> response) (now : Z) :
  let a := fst (apply_app_calls cs WindowsApp.init) in
  let r := apply_app_calls [AppStop net now; AppStart] a in
  WindowsApp.background_worker (fst r) =
    Some (self (start (init (PyStr "windows_session") (PyInt 1) default_api_url))) /\
  spawned (snd r) = [MouseListener; KeyboardListener; DataThread] /\
  option_map mouse_events (WindowsApp.background_worker (fst r)) = Some [] /\
  option_map keyboard_events (WindowsApp.background_worker (fst r)) = Some [] /\
  option_map data_thread (WindowsApp.background_worker (fst r)) = Some (Some AtWhile).
Proof.
  intros a r.
  destruct (apply_app_calls_keeps cs WindowsApp.init I) as (C & s & u & _).
  fold a in C, s, u. cbn in s, u.
  assert (R : WindowsApp.app (WindowsApp.stop_background_worker 3 net now a)
              = WindowsApp.set_background_worker None a /\
              spawned (WindowsApp.app_out (WindowsApp.stop_background_worker 3 net now a))
              = []).
  { unfold app_consistent in C.
    destruct (WindowsApp.background_worker a) as [w|] eqn:E.
    - destruct C as (C & L & _).
      destruct (app_stop_held net now a w 0 E C L) as (_ & -> & -> & S0 & _).
      now split.
    - unfold WindowsApp.stop_background_worker. rewrite E. cbn. split; [|reflexivity].
      destruct a. cbn in E. now subst. }
  destruct R as [R1 R2].
  subst r. cbn [apply_app_calls apply_app_call fst snd].
  rewrite R1. unfold WindowsApp.start_background_worker. cbn.
  rewrite s, u, !spawned_app, R2. cbn.
  repeat split.
Qed.

(** ** The pace of the requests *)

Lemma spaced_cons (a : Z) (l : list Z) :
  Forall (fun t => a + 5 <= t) l -> spaced l -> spaced (a :: l).
Proof.
  intros F S. destruct l as [|b l]; [exact I|].
  split; [|exact S]. now inversion F.
Qed.

Lemma request_times_paced (cs : list call) :
  forall (w : BackgroundWorker) (t0 : Z),
    in_time_order t0 cs = true ->
    Forall (fun t => next_request t0 w <= t) (request_times cs w) /\
    spaced (request_times cs w).
Proof.
  induction cs as [|c cs IH]; intros w t0 H; [split; [constructor|exact I]|].
  destruct c as [|net now|i|net now]; cbn [in_time_order] in H; try discriminate.
  - (* a callback *)
    cbn [request_times apply_call fst snd posts].
    destruct (IH (record i w) t0 H) as [B S]. split; [|exact S].
    unfold next_request in *.
    destruct (record_fields i w) as (_ & _ & _ & _ & _ & _ & g).
    now rewrite g in B.
  - (* a step of the thread *)
    apply andb_true_iff in H. destruct H as [T H]. apply Z.leb_le in T.
    cbn [request_times apply_call].
    destruct (IH (fst (send_data_step net now w)) now H) as [B S].
    assert (L : forall l, Forall (fun t => next_request now (fst (send_data_step net now w)) <= t) l ->
                          next_request t0 w <= next_request now (fst (send_data_step net now w)) ->
                          Forall (fun t => next_request t0 w <= t) l).
    { intros l F Le. eapply Forall_impl; [|exact F]. cbn. intros; lia. }
    unfold send_data_step in *.
    destruct (data_thread w) as [[|u|]|] eqn:D.
    + (* at the condition of the while *)
      destruct (_stop_event w); cbn [fst snd posts] in *;
        (split; [|exact S]); apply L; try exact B;
        unfold next_request; cbn; rewrite D; lia.
    + (* sleeping *)
      destruct (now <? u) eqn:Lt.
      * cbn [fst snd posts] in *. split; [|exact S]. apply L; [exact B|].
        unfold next_request. rewrite D. lia.
      * apply Z.ltb_ge in Lt.
        destruct (cycle (net now) w) as [w1 o1]. cbn [fst snd] in *.
        assert (N : next_request now (set_data_thread (Some AtWhile) w1) = now + 5)
          by reflexivity.
        rewrite N in *.
        assert (U : next_request t0 w = u) by (unfold next_request; now rewrite D).
        destruct (posts o1) as [|b bs].
        -- split; [|exact S]. apply L; [exact B|lia].
        -- split.
           ++ constructor; [lia|]. apply L; [exact B|lia].
           ++ apply spaced_cons; assumption.
    + cbn [fst snd posts] in *. split; [|exact S]. apply L; [exact B|].
      unfold next_request. rewrite D. lia.
    + cbn [fst snd posts] in *. split; [|exact S]. apply L; [exact B|].
      unfold next_request. rewrite D. lia.
Qed.

(** X14.  Requests are at least five seconds apart.  While a worker is
    running, whatever callbacks run and whenever its thread takes its steps
    (at instants that do not go back), two requests in a row are made at
    instants five seconds apart or more, and the first one not before the
    end of the sleep in progress, or five seconds from now when the thread
    is not sleeping. *)
Theorem requests_are_five_seconds_apart (cs : list call) (w : BackgroundWorker) (t0 : Z) :
  in_time_order t0 cs = true ->
  spaced (request_times cs w) /\
  Forall (fun t => next_request t0 w <= t) (request_times cs w).
Proof.
  intros H. destruct (request_times_paced cs w t0 H) as [B S]. now split.
Qed.

Lemma requests_are_five_seconds_apart_witness :
  let net := fun _ : Z => Response 200 in
  let w := self (start (init (PyStr "s1") (PyInt 1) default_api_url)) in
  let cs := [ThreadStep net 0; Callback (Move 10 20 1); ThreadStep net 3;
             ThreadStep net 5; Callback (Move 11 20 6); ThreadStep net 6;
             ThreadStep net 12] in
  request_times cs w = [5; 12] /\
  spaced (request_times cs w) /\
  Forall (fun t => next_request 0 w <= t) (request_times cs w).
Proof.
  intros net w cs. split; [reflexivity|].
  apply (requests_are_five_seconds_apart cs w 0). reflexivity.
Defined.
